(** * go-todo: a shallow embedding of main.go and its CRUD contract

    The program is an HTTP service with four handlers (fetchTodos,
    createTodos, updateTodo, deleteTodo) over one MongoDB collection.  The
    handlers are embedded as state-passing functions over a model of the
    collection; what the handlers obtain from their environment (the decoded
    request body, the clock, primitive.NewObjectID, driver errors) is passed
    in explicitly. *)

From Stdlib Require Import List String Ascii Bool Arith NArith ZArith Lia Eqdep_dec.
Import ListNotations.
Open Scope string_scope.
Open Scope list_scope.

(** ** Go strings and bytes

    A Go string is a sequence of bytes: [string] over [ascii]. *)

Definition byte := ascii.

Fixpoint bytes_eqb (a b : list byte) : bool :=
  match a, b with
  | [], [] => true
  | x :: a', y :: b' => Ascii.eqb x y && bytes_eqb a' b'
  | _, _ => false
  end.

(** ** encoding/hex *)

Module hex.

(** hextable = "0123456789abcdef" *)
Definition hextable (n : N) : ascii :=
  match String.get (N.to_nat n) "0123456789abcdef" with
  | Some c => c
  | None => "0"%char
  end.

(** Encode: dst[2i] = hextable[v>>4]; dst[2i+1] = hextable[v&0x0f]. *)
Fixpoint Encode (src : list byte) : string :=
  match src with
  | [] => ""
  | v :: rest =>
      String (hextable (N.shiftr (N_of_ascii v) 4))
        (String (hextable (N.land (N_of_ascii v) 15)) (Encode rest))
  end.

(** fromHexChar: '0'..'9', 'a'..'f', 'A'..'F'. *)
Definition fromHexChar (c : ascii) : option N :=
  let n := N_of_ascii c in
  (if (48 <=? n) && (n <=? 57) then Some (n - 48)
   else if (97 <=? n) && (n <=? 102) then Some (n - 97 + 10)
   else if (65 <=? n) && (n <=? 70) then Some (n - 65 + 10)
   else None)%N.

(** Decode: pairs of hex digits; an error on an odd length or on a byte
    that is not a hex digit. *)
Fixpoint Decode (s : string) : option (list byte) :=
  match s with
  | "" => Some []
  | String _ "" => None
  | String p (String q rest) =>
      match fromHexChar p, fromHexChar q with
      | Some a, Some b =>
          match Decode rest with
          | Some bs => Some (ascii_of_N (N.lor (N.shiftl a 4) b) :: bs)
          | None => None
          end
      | _, _ => None
      end
  end.

End hex.

(** ** bson/primitive: ObjectID *)

Module primitive.

(** type ObjectID [12]byte *)
Record ObjectID := mkObjectID {
  bytes : list byte;
  bytes_len : Nat.eqb (List.length bytes) 12 = true
}.

Definition eqb (a b : ObjectID) : bool := bytes_eqb (bytes a) (bytes b).

(** var NilObjectID ObjectID *)
Definition NilObjectID : ObjectID :=
  mkObjectID (repeat zero 12) eq_refl.

(** func (id ObjectID) IsZero() bool *)
Definition IsZero (id : ObjectID) : bool := eqb id NilObjectID.

(** func (id ObjectID) Hex() string *)
Definition Hex (id : ObjectID) : string := hex.Encode (bytes id).

Definition of_bytes (l : list byte) : option ObjectID :=
  match Nat.eqb (List.length l) 12 as b
        return (Nat.eqb (List.length l) 12 = b -> option ObjectID) with
  | true => fun H => Some (mkObjectID l H)
  | false => fun _ => None
  end eq_refl.

(** func ObjectIDFromHex(s string) (ObjectID, error): the string must be
    24 bytes long and decode as hex; [None] is the error return. *)
Definition ObjectIDFromHex (s : string) : option ObjectID :=
  if negb (Nat.eqb (String.length s) 24) then None
  else match hex.Decode s with
       | Some l => of_bytes l
       | None => None
       end.

(** func IsValidObjectID(s string) bool *)
Definition IsValidObjectID (s : string) : bool :=
  match ObjectIDFromHex s with
  | Some _ => true
  | None => false
  end.

End primitive.

(** ** strings.TrimSpace

    TrimSpace removes all leading and trailing white space, as defined by
    Unicode, from a string of UTF-8 bytes.  A white-space code point is one
    ASCII byte or the two- or three-byte UTF-8 form of one of U+0085,
    U+00A0, U+1680, U+2000..U+200A, U+2028, U+2029, U+202F, U+205F,
    U+3000. *)

Module unicode.

(** '\t', '\n', '\v', '\f', '\r', ' ' *)
Definition space1 (a : byte) : bool :=
  let x := N_of_ascii a in
  ((9 <=? x) && (x <=? 13) || (x =? 32))%N.

(** U+0085 = C2 85, U+00A0 = C2 A0 *)
Definition space2 (a b : byte) : bool :=
  let x := N_of_ascii a in
  let y := N_of_ascii b in
  ((x =? 0xC2) && ((y =? 0x85) || (y =? 0xA0)))%N.

(** U+1680 = E1 9A 80, U+2000..U+200A = E2 80 80..8A, U+2028 = E2 80 A8,
    U+2029 = E2 80 A9, U+202F = E2 80 AF, U+205F = E2 81 9F,
    U+3000 = E3 80 80 *)
Definition space3 (a b c : byte) : bool :=
  let x := N_of_ascii a in
  let y := N_of_ascii b in
  let z := N_of_ascii c in
  ((x =? 0xE1) && (y =? 0x9A) && (z =? 0x80)
   || (x =? 0xE2) && (y =? 0x80)
      && ((0x80 <=? z) && (z <=? 0x8A) || (z =? 0xA8) || (z =? 0xA9) || (z =? 0xAF))
   || (x =? 0xE2) && (y =? 0x81) && (z =? 0x9F)
   || (x =? 0xE3) && (y =? 0x80) && (z =? 0x80))%N.

End unicode.

Module strings.

Section Strip.

Variable sp1 : byte -> bool.
Variable sp2 : byte -> byte -> bool.
Variable sp3 : byte -> byte -> byte -> bool.

(** Number of bytes of the white-space code point at the head of [s], 0
    when [s] does not start with one. *)
Definition width (s : list byte) : nat :=
  match s with
  | a :: r =>
      if sp1 a then 1
      else match r with
           | b :: r' =>
               if sp2 a b then 2
               else match r' with
                    | c :: _ => if sp3 a b c then 3 else 0
                    | [] => 0
                    end
           | [] => 0
           end
  | [] => 0
  end.

(** Drop white-space code points from the head of [s] until none is left. *)
Fixpoint strip (s : list byte) : list byte :=
  match s with
  | [] => []
  | a :: r =>
      if sp1 a then strip r
      else match r with
           | b :: r' =>
               if sp2 a b then strip r'
               else match r' with
                    | c :: r'' => if sp3 a b c then strip r'' else s
                    | [] => s
                    end
           | [] => s
           end
  end.

(** Strings made of white-space code points only. *)
Inductive spaces : list byte -> Prop :=
| spaces_nil : spaces []
| spaces_1 a s : sp1 a = true -> spaces s -> spaces (a :: s)
| spaces_2 a b s : sp2 a b = true -> spaces s -> spaces (a :: b :: s)
| spaces_3 a b c s : sp3 a b c = true -> spaces s -> spaces (a :: b :: c :: s).

(** A byte that starts no white-space code point. *)
Definition plain (x : byte) : Prop :=
  sp1 x = false /\ (forall b, sp2 x b = false) /\ (forall b c, sp3 x b c = false).

End Strip.

(** TrimLeftFunc(s, unicode.IsSpace) *)
Definition TrimLeft (s : list byte) : list byte :=
  strip unicode.space1 unicode.space2 unicode.space3 s.

(** The encodings read from their last byte backwards. *)
Definition space2_rev (b a : byte) : bool := unicode.space2 a b.
Definition space3_rev (c b a : byte) : bool := unicode.space3 a b c.

(** TrimRightFunc(s, unicode.IsSpace): the same scan from the last byte
    backwards. *)
Definition TrimRight (s : list byte) : list byte :=
  rev (strip unicode.space1 space2_rev space3_rev (rev s)).

(** func TrimSpace(s string) string *)
Definition TrimSpace (s : string) : string :=
  string_of_list_ascii (TrimRight (TrimLeft (list_ascii_of_string s))).

End strings.

(** ** time and net/http *)

(** time.Time, as an instant on the clock. *)
Definition Time := Z.

Module http.
Definition StatusOK : Z := 200.
Definition StatusBadRequest : Z := 400.
Definition StatusNotFound : Z := 404.
Definition StatusInternalServerError : Z := 500.
End http.

(** ** The data model of main.go *)

(** A Go slice: [None] is the nil slice. *)
Definition slice (A : Type) := option (list A).

Definition append {A : Type} (s : slice A) (x : A) : slice A :=
  match s with
  | None => Some [x]
  | Some l => Some (l ++ [x])
  end.

Definition elems {A : Type} (s : slice A) : list A :=
  match s with
  | None => []
  | Some l => l
  end.

Module todoModel.
(** todoModel struct: _id (omitempty), title, completed, createAt *)
Record t := mk {
  ID : primitive.ObjectID;
  Title : string;
  Completed : bool;
  CreateAt : Time
}.
End todoModel.

Module todo.
(** todo struct: id, title, completed, create_at *)
Record t := mk {
  ID : string;
  Title : string;
  Completed : bool;
  CreatedAt : Time
}.
End todo.

(** ** bson and the mongo driver *)

Module bson.

(** The document a todoModel marshals to. *)
Record D := mkD {
  _id : option primitive.ObjectID;
  title : string;
  completed : bool;
  createAt : Time
}.

(** Marshal by the struct tags: the field tagged "_id,omitempty" is left out
    when the identifier is the zero ObjectID. *)
Definition Marshal (tm : todoModel.t) : D :=
  {| _id := if primitive.IsZero (todoModel.ID tm) then None
            else Some (todoModel.ID tm);
     title := todoModel.Title tm;
     completed := todoModel.Completed tm;
     createAt := todoModel.CreateAt tm |}.

End bson.

Module mongo.

(** A call of the driver on the "todo" collection. *)
Inductive Call :=
| Find
| CursorAll
| InsertOne (doc : bson.D)
| DeleteOne (filter_id : primitive.ObjectID)
| UpdateOne (filter_id : primitive.ObjectID) (set_title : string) (set_completed : bool).

(** The database handle [db]: the documents of the "todo" collection in
    their natural order, and the driver calls made so far. *)
Record Database := mkDatabase {
  collection : list todoModel.t;
  calls : list Call
}.

(** The (value, error) pair a driver call returns. *)
Inductive result (A : Type) :=
| Ok (a : A)
| Err (msg : string).
Arguments Ok {A} a.
Arguments Err {A} msg.

(** Handlers run against the database handle. *)
Definition IO (A : Type) := Database -> A * Database.

Definition ret {A : Type} (a : A) : IO A := fun db => (a, db).

Definition bind {A B : Type} (m : IO A) (k : A -> IO B) : IO B :=
  fun db => let (a, db') := m db in k a db'.

Definition called (c : Call) : IO unit :=
  fun db => (tt, mkDatabase (collection db) (calls db ++ [c])).

Definition documents : IO (list todoModel.t) :=
  fun db => (collection db, db).

Definition store (c : list todoModel.t) : IO unit :=
  fun db => (tt, mkDatabase c (calls db)).

Definition has_id (id : primitive.ObjectID) (c : list todoModel.t) : bool :=
  existsb (fun d => primitive.eqb (todoModel.ID d) id) c.

(** Remove the first document whose _id is [id]; the second component is
    the DeletedCount. *)
Fixpoint delete_first (id : primitive.ObjectID) (c : list todoModel.t)
  : list todoModel.t * Z :=
  match c with
  | [] => ([], 0%Z)
  | d :: rest =>
      if primitive.eqb (todoModel.ID d) id then (rest, 1%Z)
      else let (rest', n) := delete_first id rest in (d :: rest', n)
  end.

(** Apply {"$set": {"title": ..., "completed": ...}} to the first document
    whose _id is [id]; the second component is the MatchedCount. *)
Fixpoint update_first (id : primitive.ObjectID) (ti : string) (co : bool)
  (c : list todoModel.t) : list todoModel.t * Z :=
  match c with
  | [] => ([], 0%Z)
  | d :: rest =>
      if primitive.eqb (todoModel.ID d) id
      then (todoModel.mk (todoModel.ID d) ti co (todoModel.CreateAt d) :: rest, 1%Z)
      else let (rest', n) := update_first id ti co rest in (d :: rest', n)
  end.

End mongo.

Declare Scope io_scope.
Delimit Scope io_scope with io.
Notation "x <- m ;; k" := (mongo.bind m (fun x => k))
  (at level 61, m at next level, right associativity) : io_scope.
Notation "m ;;; k" := (mongo.bind m (fun _ => k))
  (at level 61, right associativity) : io_scope.

Module Collection.
Import mongo.
Open Scope io_scope.

(** collection.Find(ctx, bson.M{}): a cursor over every document of the
    collection, or the driver's error [err]. *)
Definition Find (err : option string) : IO (result (list todoModel.t)) :=
  called mongo.Find ;;;
  match err with
  | Some e => ret (Err e)
  | None => c <- documents ;; ret (Ok c)
  end.

(** cur.All(ctx, &todos): the documents of the cursor decoded, or the
    driver's error [err]. *)
Definition All (err : option string) (cur : list todoModel.t)
  : IO (result (list todoModel.t)) :=
  called mongo.CursorAll ;;;
  match err with
  | Some e => ret (Err e)
  | None => ret (Ok cur)
  end.

(** collection.InsertOne(ctx, doc): a document without _id is given
    [fresh] by the driver; the unique index on _id rejects an identifier
    that is already stored. *)
Definition InsertOne (err : option string) (fresh : primitive.ObjectID)
  (doc : bson.D) : IO (result primitive.ObjectID) :=
  called (mongo.InsertOne doc) ;;;
  match err with
  | Some e => ret (Err e)
  | None =>
      c <- documents ;;
      let id := match bson._id doc with
                | Some i => i
                | None => fresh
                end in
      if has_id id c then ret (Err "E11000 duplicate key error")
      else
        store (c ++ [todoModel.mk id (bson.title doc) (bson.completed doc)
                                  (bson.createAt doc)]) ;;;
        ret (Ok id)
  end.

(** collection.DeleteOne(ctx, bson.M{"_id": id}): the DeletedCount. *)
Definition DeleteOne (err : option string) (id : primitive.ObjectID)
  : IO (result Z) :=
  called (mongo.DeleteOne id) ;;;
  match err with
  | Some e => ret (Err e)
  | None =>
      c <- documents ;;
      let (c', n) := delete_first id c in
      store c' ;;; ret (Ok n)
  end.

(** collection.UpdateOne(ctx, bson.M{"_id": id},
      bson.M{"$set": bson.M{"title": ti, "completed": co}}):
    the MatchedCount. *)
Definition UpdateOne (err : option string) (id : primitive.ObjectID)
  (ti : string) (co : bool) : IO (result Z) :=
  called (mongo.UpdateOne id ti co) ;;;
  match err with
  | Some e => ret (Err e)
  | None =>
      c <- documents ;;
      let (c', n) := update_first id ti co c in
      store c' ;;; ret (Ok n)
  end.

End Collection.

(** ** renderer *)

Module renderer.

(** The values main.go puts in a renderer.M. *)
Inductive value :=
| Str (s : string)
| Todos (l : slice todo.t).

(** renderer.M, a map[string]interface{}. *)
Definition M := list (string * value).

(** What rnd.JSON(w, status, v) writes. *)
Record Response := JSON {
  Status : Z;
  Body : M
}.

Fixpoint get (k : string) (m : M) : option value :=
  match m with
  | [] => None
  | (k', v) :: rest => if String.eqb k k' then Some v else get k rest
  end.

End renderer.

(** ** encoding/json of the response values *)

Module json.

#[warnings="-register-all"]
Inductive t :=
| Null
| Bool (b : bool)
| String (s : string)
| Timestamp (x : Time)
| Array (l : list t)
| Object (l : list (string * t)).

Definition of_todo (x : todo.t) : t :=
  Object [("id", String (todo.ID x));
          ("title", String (todo.Title x));
          ("completed", Bool (todo.Completed x));
          ("create_at", Timestamp (todo.CreatedAt x))].

(** A nil slice is encoded as null, any other slice as an array. *)
Definition Marshal (v : renderer.value) : t :=
  match v with
  | renderer.Str s => String s
  | renderer.Todos None => Null
  | renderer.Todos (Some l) => Array (map of_todo l)
  end.

End json.

(** ** The handlers of main.go *)

(** What a handler reads from its environment during one request. *)
Record Env := mkEnv {
  (** the result of primitive.NewObjectID() *)
  NewObjectID : primitive.ObjectID;
  (** the result of time.Now() *)
  Now : Time;
  (** the identifier the driver gives a document submitted without _id *)
  driverObjectID : primitive.ObjectID;
  (** the error of Find, InsertOne, DeleteOne or UpdateOne; [None] is nil *)
  storeErr : option string;
  (** the error of cur.All; [None] is nil *)
  cursorErr : option string
}.

(** The request: chi.URLParam(r, "id"), and the outcome of
    json.NewDecoder(r.Body).Decode(&t), [None] when it returns an error. *)
Record Request := mkRequest {
  URLParam_id : string;
  Decode : option todo.t
}.

Section Handlers.
Import mongo renderer.
Open Scope io_scope.

Definition toView (t : todoModel.t) : todo.t :=
  {| todo.ID := primitive.Hex (todoModel.ID t);
     todo.Title := todoModel.Title t;
     todo.Completed := todoModel.Completed t;
     todo.CreatedAt := todoModel.CreateAt t |}.

Definition fetchTodos (e : Env) : IO Response :=
  r <- Collection.Find (storeErr e) ;;
  match r with
  | Err msg =>
      ret (JSON http.StatusInternalServerError
             [("message", Str "Failed to fetch todo"); ("error", Str msg)])
  | Ok cur =>
      r <- Collection.All (cursorErr e) cur ;;
      match r with
      | Err msg =>
          ret (JSON http.StatusInternalServerError
                 [("message", Str "Failed to decode todos"); ("error", Str msg)])
      | Ok todos =>
          let todoList :=
            fold_left (fun acc t => append acc (toView t)) todos None in
          ret (JSON http.StatusOK [("data", Todos todoList)])
      end
  end.

Definition createTodos (e : Env) (r : Request) : IO Response :=
  match Decode r with
  | None =>
      ret (JSON http.StatusBadRequest [("message", Str "Invalid request payload")])
  | Some t =>
      if String.eqb (todo.Title t) ""
      then ret (JSON http.StatusBadRequest
                  [("message", Str "Title field is required")])
      else
        let tm := {| todoModel.ID := NewObjectID e;
                     todoModel.Title := todo.Title t;
                     todoModel.Completed := false;
                     todoModel.CreateAt := Now e |} in
        res <- Collection.InsertOne (storeErr e) (driverObjectID e)
                 (bson.Marshal tm) ;;
        match res with
        | Err msg =>
            ret (JSON http.StatusInternalServerError
                   [("message", Str "Failed to save todo"); ("error", Str msg)])
        | Ok _ =>
            ret (JSON http.StatusOK
                   [("message", Str "Todo successfully saved");
                    ("Todo ID", Str (primitive.Hex (todoModel.ID tm)))])
        end
  end.

(** objectID, _ := primitive.ObjectIDFromHex(id) *)
Definition objectID_of (id : string) : primitive.ObjectID :=
  match primitive.ObjectIDFromHex id with
  | Some o => o
  | None => primitive.NilObjectID
  end.

Definition deleteTodo (e : Env) (r : Request) : IO Response :=
  let id := strings.TrimSpace (URLParam_id r) in
  if negb (primitive.IsValidObjectID id)
  then ret (JSON http.StatusBadRequest [("message", Str "Invalid ID")])
  else
    let objectID := objectID_of id in
    res <- Collection.DeleteOne (storeErr e) objectID ;;
    match res with
    | Err msg =>
        ret (JSON http.StatusInternalServerError
               [("message", Str "Failed to delete TODO"); ("error", Str msg)])
    | Ok DeletedCount =>
        if (DeletedCount =? 0)%Z
        then ret (JSON http.StatusNotFound [("message", Str "Todo not found")])
        else ret (JSON http.StatusOK [("message", Str "Successfully deleted TODO")])
    end.

Definition updateTodo (e : Env) (r : Request) : IO Response :=
  let id := strings.TrimSpace (URLParam_id r) in
  if negb (primitive.IsValidObjectID id)
  then ret (JSON http.StatusBadRequest [("message", Str "Invalid ID")])
  else
    match Decode r with
    | None =>
        ret (JSON http.StatusBadRequest [("message", Str "Invalid request payload")])
    | Some t =>
        if String.eqb (todo.Title t) ""
        then ret (JSON http.StatusBadRequest
                    [("message", Str "Title field is required")])
        else
          let objectID := objectID_of id in
          res <- Collection.UpdateOne (storeErr e) objectID
                   (todo.Title t) (todo.Completed t) ;;
          match res with
          | Err msg =>
              ret (JSON http.StatusInternalServerError
                     [("message", Str "Failed to update todo"); ("error", Str msg)])
          | Ok _ =>
              ret (JSON http.StatusOK [("message", Str "Successfully updated TODO")])
          end
    end.

End Handlers.

(** ** What the contract speaks of *)

(** Every stored document has its own _id (the unique index of the store). *)
Definition unique_ids (c : list todoModel.t) : Prop :=
  NoDup (map todoModel.ID c).

(** Look an identifier up in the views of a List response. *)
Definition find_view (id : string) (l : list todo.t) : option todo.t :=
  find (fun v => String.eqb (todo.ID v) id) l.

(** The views carried by the "data" field of a response body. *)
Definition data_of (r : renderer.Response) : option (slice todo.t) :=
  match renderer.get "data" (renderer.Body r) with
  | Some (renderer.Todos l) => Some l
  | _ => None
  end.

(** A hexadecimal digit. *)
Definition hexdigit (c : byte) : Prop := hex.fromHexChar c <> None.

(** The string carried by field [k] of a response body. *)
Definition field_of (k : string) (r : renderer.Response) : option string :=
  match renderer.get k (renderer.Body r) with
  | Some (renderer.Str s) => Some s
  | _ => None
  end.

(** A string made of white-space code points only. *)
Definition AllSpace : list byte -> Prop :=
  strings.spaces unicode.space1 unicode.space2 unicode.space3.

(** ** The scenario of the contract *)

Definition id_X : primitive.ObjectID := objectID_of "65f1a0b2c3d4e5f601020304".
Definition id_Y : primitive.ObjectID := objectID_of "0123456789abcdef01234567".

(** NewObjectID gives X, the driver would give Y, no driver error. *)
Definition env0 : Env :=
  {| NewObjectID := id_X; Now := 1700000000%Z; driverObjectID := id_Y;
     storeErr := None; cursorErr := None |}.

Definition empty_db : mongo.Database := mongo.mkDatabase [] [].

(** POST {"title":"Buy milk","completed":true} *)
Definition post_buy_milk : Request :=
  {| URLParam_id := "";
     Decode := Some (todo.mk "" "Buy milk" true 0%Z) |}.

(** PUT /todo/X {"title":"Buy milk","completed":true} *)
Definition put_X : Request :=
  {| URLParam_id := "65f1a0b2c3d4e5f601020304";
     Decode := Some (todo.mk "" "Buy milk" true 0%Z) |}.

(** DELETE /todo/X *)
Definition delete_X : Request :=
  {| URLParam_id := "65f1a0b2c3d4e5f601020304"; Decode := None |}.

(** DELETE /todo/not-an-id *)
Definition delete_not_an_id : Request :=
  {| URLParam_id := "not-an-id"; Decode := None |}.

(** U+00A0, no-break space, in UTF-8. *)
Definition nbsp : string := String (ascii_of_N 0xC2) (String (ascii_of_N 0xA0) "").

(** DELETE /todo/{id} with X between a tab and a no-break space on the left
    and a no-break space and a blank on the right. *)
Definition delete_padded_X : Request :=
  {| URLParam_id :=
       (String (ascii_of_N 9) nbsp ++ "65f1a0b2c3d4e5f601020304" ++ nbsp ++ " ")%string;
     Decode := None |}.

(** DELETE /todo/{id} with X between two blanks. *)
Definition delete_blank_X : Request :=
  {| URLParam_id := " 65f1a0b2c3d4e5f601020304 "; Decode := None |}.

(** PUT /todo/{id} with X between two blanks. *)
Definition put_blank_X : Request :=
  {| URLParam_id := " 65f1a0b2c3d4e5f601020304 ";
     Decode := Some (todo.mk "" "Buy milk" true 0%Z) |}.

(** The database after the POST. *)
Definition db_X : mongo.Database := snd (createTodos env0 post_buy_milk empty_db).

(** The number of documents a request removed from the collection. *)
Definition removed (db db' : mongo.Database) : Z :=
  Z.of_nat (List.length (mongo.collection db))
  - Z.of_nat (List.length (mongo.collection db')).

(** The documents a handler submitted to InsertOne. *)
Fixpoint inserted (cs : list mongo.Call) : list bson.D :=
  match cs with
  | [] => []
  | mongo.InsertOne doc :: rest => doc :: inserted rest
  | _ :: rest => inserted rest
  end.

(** ** The routes of todoHandlers *)

Inductive Method := GET | POST | PUT | DELETE | PATCH.

(** The patterns registered on the sub-router: "/" and "/{id}". *)
Inductive Pattern := Slash | SlashId.

Definition Handler := Env -> Request -> mongo.IO renderer.Response.

(** func todoHandlers() http.Handler: the handler registered for a method
    on a pattern; [None] when the sub-router has none. *)
Definition todoHandlers (m : Method) (p : Pattern) : option Handler :=
  match m, p with
  | GET, Slash => Some (fun e _ => fetchTodos e)
  | POST, Slash => Some createTodos
  | PUT, SlashId => Some updateTodo
  | DELETE, SlashId => Some deleteTodo
  | _, _ => None
  end.

(** One request as the sub-router sees it, with what its handler reads
    from the environment. *)
Record Served := mkServed {
  served_method : Method;
  served_pattern : Pattern;
  served_env : Env;
  served_request : Request
}.

(** Serve one request: run the registered handler, if there is one. *)
Definition serve (q : Served) : mongo.IO (option renderer.Response) :=
  match todoHandlers (served_method q) (served_pattern q) with
  | Some h =>
      fun db => let (resp, db') := h (served_env q) (served_request q) db in
                (Some resp, db')
  | None => mongo.ret None
  end.

(** Serve requests one after the other; the database they leave. *)
Fixpoint serve_all (qs : list Served) (db : mongo.Database) : mongo.Database :=
  match qs with
  | [] => db
  | q :: rest => serve_all rest (snd (serve q db))
  end.

(** ** Startup: func init() *)

Module startup.

(** *renderer.Render, as renderer.New() makes it. *)
Inductive Render := New.

(** *mongo.Client, connected with a URI. *)
Record Client := Connect { uri : string }.

(** *mongo.Database, client.Database(name). *)
Record Database := mkDatabase { client_of : Client; name : string }.

(** The package-level variables rnd, client and db; [None] is nil. *)
Record Globals := mkGlobals {
  rnd : option Render;
  client : option Client;
  db : option Database
}.

(** The variables before init runs. *)
Definition zero : Globals := mkGlobals None None None.

(** const dbName string = "demo_todo" *)
Definition dbName : string := "demo_todo".

(** How init ends: log.Fatal with a message, or a return. *)
Inductive outcome :=
| Fatal (msg : string)
| Started (g : Globals).

(** func init(): [loadErr] is the error of godotenv.Load(), [mongoURI] the
    value of os.Getenv("MONGO_URI"), [connectErr] the error of
    mongo.Connect.  The client that Connect returns is bound by := to a
    new local variable: the package-level client is not assigned. *)
Definition init (g : Globals) (loadErr : option string) (mongoURI : string)
  (connectErr : option string) : outcome :=
  match loadErr with
  | Some _ => Fatal "Error loading .env file"
  | None =>
      if String.eqb mongoURI ""
      then Fatal "MONGO_URI environment variable is not set"
      else
        let g1 := mkGlobals (Some New) (client g) (db g) in
        match connectErr with
        | Some e => Fatal e
        | None =>
            let client_local := Connect mongoURI in
            Started (mkGlobals (rnd g1) (client g1)
                       (Some (mkDatabase client_local dbName)))
        end
  end.

End startup.

(** ** More requests of the scenario *)

(** DELETE /todo/X with X in upper-case hex. *)
Definition delete_upper_X : Request :=
  {| URLParam_id := "65F1A0B2C3D4E5F601020304"; Decode := None |}.

(** PUT /todo/X {"title":"Buy bread","completed":true} *)
Definition put_X_bread : Request :=
  {| URLParam_id := "65f1a0b2c3d4e5f601020304";
     Decode := Some (todo.mk "" "Buy bread" true 0%Z) |}.

(** PUT /todo/X with a body that has no title. *)
Definition put_X_no_title : Request :=
  {| URLParam_id := "65f1a0b2c3d4e5f601020304";
     Decode := Some (todo.mk "" "" true 0%Z) |}.

(** * Properties *)

(** ** Bytes, hex and ObjectID *)

Lemma bytes_eqb_eq a b : bytes_eqb a b = true <-> a = b.
Proof.
  revert b; induction a as [|x a IH]; intros [|y b]; simpl; split;
    try congruence; try reflexivity.
  - rewrite andb_true_iff, Ascii.eqb_eq, IH. intros [-> ->]; reflexivity.
  - intros E; injection E as -> ->.
    rewrite Ascii.eqb_refl; simpl. apply IH; reflexivity.
Qed.

Lemma ObjectID_ext (a b : primitive.ObjectID) :
  primitive.bytes a = primitive.bytes b -> a = b.
Proof.
  destruct a as [x Hx], b as [y Hy]; simpl; intros ->.
  f_equal. apply UIP_dec, bool_dec.
Qed.

Lemma oid_eqb_eq a b : primitive.eqb a b = true <-> a = b.
Proof.
  unfold primitive.eqb; rewrite bytes_eqb_eq; split.
  - apply ObjectID_ext.
  - intros ->; reflexivity.
Qed.

Lemma oid_eqb_refl a : primitive.eqb a a = true.
Proof. apply oid_eqb_eq; reflexivity. Qed.

Lemma oid_eqb_neq a b : primitive.eqb a b = false <-> a <> b.
Proof.
  split.
  - intros E ->. rewrite oid_eqb_refl in E; discriminate.
  - intros N. destruct (primitive.eqb a b) eqn:E; [|reflexivity].
    apply oid_eqb_eq in E; contradiction.
Qed.

Lemma hex_byte_roundtrip (v : byte) :
  hex.fromHexChar (hex.hextable (N.shiftr (N_of_ascii v) 4))
    = Some (N.shiftr (N_of_ascii v) 4)
  /\ hex.fromHexChar (hex.hextable (N.land (N_of_ascii v) 15))
    = Some (N.land (N_of_ascii v) 15)
  /\ ascii_of_N (N.lor (N.shiftl (N.shiftr (N_of_ascii v) 4) 4)
                       (N.land (N_of_ascii v) 15)) = v.
Proof.
  destruct v as [[] [] [] [] [] [] [] []]; repeat split; reflexivity.
Qed.

Lemma hex_Decode_Encode (l : list byte) : hex.Decode (hex.Encode l) = Some l.
Proof.
  induction l as [|v l IH]; [reflexivity|].
  destruct (hex_byte_roundtrip v) as (H1 & H2 & H3).
  cbn [hex.Encode hex.Decode]. rewrite H1, H2, IH, H3. reflexivity.
Qed.

Lemma hex_Encode_length (l : list byte) :
  String.length (hex.Encode l) = 2 * List.length l.
Proof. induction l; simpl; lia. Qed.

Lemma of_bytes_Some (l : list byte) (o : primitive.ObjectID) :
  primitive.of_bytes l = Some o -> primitive.bytes o = l.
Proof.
  unfold primitive.of_bytes.
  generalize (@eq_refl bool (Nat.eqb (List.length l) 12)).
  generalize (Nat.eqb (List.length l) 12) at 2 3.
  intros [] H E; [|discriminate].
  injection E as <-. reflexivity.
Qed.

Lemma of_bytes_bytes (o : primitive.ObjectID) :
  primitive.of_bytes (primitive.bytes o) = Some o.
Proof.
  destruct (primitive.of_bytes (primitive.bytes o)) as [o'|] eqn:E.
  - f_equal. apply ObjectID_ext. apply (of_bytes_Some _ _ E).
  - exfalso. revert E. unfold primitive.of_bytes.
    generalize (@eq_refl bool (Nat.eqb (List.length (primitive.bytes o)) 12)).
    generalize (Nat.eqb (List.length (primitive.bytes o)) 12) at 2 3.
    intros [] H E; [discriminate|].
    rewrite (primitive.bytes_len o) in H. discriminate.
Qed.

(** Parsing the canonical form of an identifier gives the identifier back. *)
Lemma ObjectIDFromHex_Hex (o : primitive.ObjectID) :
  primitive.ObjectIDFromHex (primitive.Hex o) = Some o.
Proof.
  unfold primitive.ObjectIDFromHex, primitive.Hex.
  rewrite hex_Encode_length.
  pose proof (primitive.bytes_len o) as L. apply Nat.eqb_eq in L.
  rewrite L. simpl negb. cbv iota.
  rewrite hex_Decode_Encode. apply of_bytes_bytes.
Qed.

Lemma Hex_inj (a b : primitive.ObjectID) :
  primitive.Hex a = primitive.Hex b -> a = b.
Proof.
  intros E. pose proof (ObjectIDFromHex_Hex a) as Ha.
  rewrite E, ObjectIDFromHex_Hex in Ha. congruence.
Qed.

Lemma Hex_valid (o : primitive.ObjectID) :
  primitive.IsValidObjectID (primitive.Hex o) = true.
Proof.
  unfold primitive.IsValidObjectID. rewrite ObjectIDFromHex_Hex. reflexivity.
Qed.

(** ** strings.TrimSpace *)

Section StripFacts.

Variable sp1 : byte -> bool.
Variable sp2 : byte -> byte -> bool.
Variable sp3 : byte -> byte -> byte -> bool.

Let width := strings.width sp1 sp2 sp3.
Let strip := strings.strip sp1 sp2 sp3.
Let spaces := strings.spaces sp1 sp2 sp3.
Let plain := strings.plain sp1 sp2 sp3.

Lemma strip_unfold (s : list byte) :
  strip s = match width s with
            | 0 => s
            | n => strip (skipn n s)
            end.
Proof.
  destruct s as [|a [|b [|c r]]]; simpl; try reflexivity;
    destruct (sp1 a); try reflexivity;
    destruct (sp2 a b); try reflexivity;
    destruct (sp3 a b c); reflexivity.
Qed.

Lemma width_pos_length (s : list byte) :
  width s <> 0 -> width s <= List.length s.
Proof.
  destruct s as [|a [|b [|c r]]]; simpl; try lia;
    destruct (sp1 a); try lia;
    destruct (sp2 a b); try lia;
    destruct (sp3 a b c); lia.
Qed.

Lemma strip_ind_length (P : list byte -> Prop) :
  (forall s, width s = 0 -> P s) ->
  (forall s, width s <> 0 -> P (skipn (width s) s) -> P s) ->
  forall s, P s.
Proof.
  intros H0 HS s.
  remember (List.length s) as n eqn:Hn. revert s Hn.
  induction n as [n IH] using lt_wf_ind. intros s ->.
  destruct (Nat.eq_dec (width s) 0) as [E|E]; [apply H0; exact E|].
  apply HS; [exact E|].
  apply (IH (List.length (skipn (width s) s))); [|reflexivity].
  rewrite length_skipn. pose proof (width_pos_length s E). lia.
Qed.

Lemma strip_width (s : list byte) : width (strip s) = 0.
Proof.
  induction s as [s E | s E IH] using strip_ind_length;
    rewrite strip_unfold.
  - rewrite E. exact E.
  - destruct (width s); [contradiction | exact IH].
Qed.

Lemma strip_fixed (s : list byte) : width s = 0 -> strip s = s.
Proof. intros E. rewrite strip_unfold, E. reflexivity. Qed.

Lemma strip_idem (s : list byte) : strip (strip s) = strip s.
Proof. apply strip_fixed, strip_width. Qed.

Lemma strip_suffix (s : list byte) : exists p, s = p ++ strip s.
Proof.
  induction s as [s E | s E [p IH]] using strip_ind_length.
  - exists []. rewrite strip_fixed by exact E. reflexivity.
  - exists (firstn (width s) s ++ p).
    rewrite (strip_unfold s). destruct (width s) as [|k] eqn:W; [contradiction|].
    rewrite <- app_assoc, <- IH. symmetry. apply firstn_skipn.
Qed.

Lemma width_app_0 (s t : list byte) : width (s ++ t) = 0 -> width s = 0.
Proof.
  destruct s as [|a [|b [|c r]]]; simpl; try reflexivity;
    destruct (sp1 a); try discriminate; try reflexivity;
    destruct (sp2 a b); try discriminate; try reflexivity;
    destruct (sp3 a b c); try discriminate; reflexivity.
Qed.

Lemma spaces_app (s t : list byte) : spaces s -> spaces t -> spaces (s ++ t).
Proof.
  intros Hs Ht; induction Hs; simpl; [exact Ht | | | ];
    constructor; assumption.
Qed.

Lemma strip_plain (x : byte) (r : list byte) :
  plain x -> strip (x :: r) = x :: r.
Proof.
  intros (H1 & H2 & H3). apply strip_fixed.
  destruct r as [|b [|c r]]; simpl; rewrite H1; try reflexivity;
    rewrite H2; try reflexivity; rewrite H3; reflexivity.
Qed.

Hypothesis sp2_not_sp1 : forall a b, sp2 a b = true -> sp1 a = false.
Hypothesis sp3_not_sp1 : forall a b c, sp3 a b c = true -> sp1 a = false.
Hypothesis sp3_not_sp2 : forall a b c, sp3 a b c = true -> sp2 a b = false.

Lemma strip_spaces_app (ws t : list byte) :
  spaces ws -> strip (ws ++ t) = strip t.
Proof.
  induction 1 as [|a s H _ IH|a b s H _ IH|a b c s H _ IH]; simpl.
  - reflexivity.
  - rewrite H. exact IH.
  - rewrite (sp2_not_sp1 _ _ H), H. exact IH.
  - rewrite (sp3_not_sp1 _ _ _ H), (sp3_not_sp2 _ _ _ H), H. exact IH.
Qed.

End StripFacts.

Ltac to_prop H :=
  repeat first [ rewrite andb_true_iff in H | rewrite orb_true_iff in H
               | rewrite N.eqb_eq in H | rewrite N.leb_le in H ].

Ltac n_false :=
  cbv zeta;
  repeat match goal with
    | |- context [N_of_ascii ?a] =>
        let n := fresh "n" in generalize (N_of_ascii a); intro n
    end.

Lemma space2_not_space1 a b :
  unicode.space2 a b = true -> unicode.space1 a = false.
Proof.
  unfold unicode.space2, unicode.space1. n_false.
  intros H. apply not_true_is_false. intros H1.
  to_prop H. to_prop H1. lia.
Qed.

Lemma space3_not_space1 a b c :
  unicode.space3 a b c = true -> unicode.space1 a = false.
Proof.
  unfold unicode.space3, unicode.space1. n_false.
  intros H. apply not_true_is_false. intros H1.
  to_prop H. to_prop H1. lia.
Qed.

Lemma space3_not_space2 a b c :
  unicode.space3 a b c = true -> unicode.space2 a b = false.
Proof.
  unfold unicode.space3, unicode.space2. n_false.
  intros H. apply not_true_is_false. intros H1.
  to_prop H. to_prop H1. lia.
Qed.

Lemma space2_rev_not_space1 a b :
  strings.space2_rev a b = true -> unicode.space1 a = false.
Proof.
  unfold strings.space2_rev, unicode.space2, unicode.space1. n_false.
  intros H. apply not_true_is_false. intros H1.
  to_prop H. to_prop H1. lia.
Qed.

Lemma space3_rev_not_space1 a b c :
  strings.space3_rev a b c = true -> unicode.space1 a = false.
Proof.
  unfold strings.space3_rev, unicode.space3, unicode.space1. n_false.
  intros H. apply not_true_is_false. intros H1.
  to_prop H. to_prop H1. lia.
Qed.

Lemma space3_rev_not_space2 a b c :
  strings.space3_rev a b c = true -> strings.space2_rev a b = false.
Proof.
  unfold strings.space3_rev, strings.space2_rev, unicode.space3, unicode.space2.
  n_false.
  intros H. apply not_true_is_false. intros H1.
  to_prop H. to_prop H1. lia.
Qed.

Lemma hexdigit_range (x : byte) :
  hexdigit x ->
  (48 <= N_of_ascii x <= 57 \/ 97 <= N_of_ascii x <= 102
   \/ 65 <= N_of_ascii x <= 70)%N.
Proof.
  unfold hexdigit, hex.fromHexChar. cbv zeta.
  generalize (N_of_ascii x) as n; intros n.
  destruct ((48 <=? n) && (n <=? 57))%N eqn:E1; [to_prop E1; lia|].
  destruct ((97 <=? n) && (n <=? 102))%N eqn:E2; [to_prop E2; lia|].
  destruct ((65 <=? n) && (n <=? 70))%N eqn:E3; [to_prop E3; lia|].
  intros H; exfalso; apply H; reflexivity.
Qed.

Lemma hexdigit_plain (x : byte) :
  hexdigit x -> strings.plain unicode.space1 unicode.space2 unicode.space3 x.
Proof.
  intros H. pose proof (hexdigit_range x H) as L. revert L.
  unfold strings.plain, unicode.space1, unicode.space2, unicode.space3.
  cbv zeta. generalize (N_of_ascii x) as n; intros n L.
  repeat split; intros; apply not_true_is_false; intros H1; to_prop H1; lia.
Qed.

Lemma hexdigit_plain_rev (x : byte) :
  hexdigit x ->
  strings.plain unicode.space1 strings.space2_rev strings.space3_rev x.
Proof.
  intros H. pose proof (hexdigit_range x H) as L. revert L.
  unfold strings.plain, strings.space2_rev, strings.space3_rev,
    unicode.space1, unicode.space2, unicode.space3.
  cbv zeta. generalize (N_of_ascii x) as n; intros n L.
  repeat split; intros; apply not_true_is_false; intros H1; to_prop H1; lia.
Qed.

Lemma TrimLeft_spaces_app (ws t : list byte) :
  AllSpace ws -> strings.TrimLeft (ws ++ t) = strings.TrimLeft t.
Proof.
  apply strip_spaces_app.
  - exact space2_not_space1.
  - exact space3_not_space1.
  - exact space3_not_space2.
Qed.

Lemma spaces_rev (ws : list byte) :
  AllSpace ws ->
  strings.spaces unicode.space1 strings.space2_rev strings.space3_rev (rev ws).
Proof.
  induction 1 as [|a s H _ IH|a b s H _ IH|a b c s H _ IH]; simpl.
  - constructor.
  - apply spaces_app; [exact IH|]. apply strings.spaces_1; [exact H|constructor].
  - rewrite <- app_assoc. apply spaces_app; [exact IH|]. simpl.
    apply strings.spaces_2; [exact H|constructor].
  - rewrite <- !app_assoc. apply spaces_app; [exact IH|]. simpl.
    apply strings.spaces_3; [exact H|constructor].
Qed.

Lemma TrimRight_app_spaces (t ws : list byte) :
  AllSpace ws -> strings.TrimRight (t ++ ws) = strings.TrimRight t.
Proof.
  intros H. unfold strings.TrimRight. rewrite rev_app_distr. f_equal.
  apply strip_spaces_app.
  - exact space2_rev_not_space1.
  - exact space3_rev_not_space1.
  - exact space3_rev_not_space2.
  - apply spaces_rev, H.
Qed.

Lemma TrimRight_prefix (s : list byte) : exists q, s = strings.TrimRight s ++ q.
Proof.
  unfold strings.TrimRight.
  destruct (strip_suffix unicode.space1 strings.space2_rev strings.space3_rev (rev s))
    as [p E].
  exists (rev p). rewrite <- rev_app_distr, <- E, rev_involutive. reflexivity.
Qed.

Lemma TrimRight_idem (s : list byte) :
  strings.TrimRight (strings.TrimRight s) = strings.TrimRight s.
Proof.
  unfold strings.TrimRight. rewrite rev_involutive, strip_idem. reflexivity.
Qed.

Lemma trim_idem (l : list byte) :
  strings.TrimRight (strings.TrimLeft (strings.TrimRight (strings.TrimLeft l)))
  = strings.TrimRight (strings.TrimLeft l).
Proof.
  set (u := strings.TrimLeft l).
  destruct (TrimRight_prefix u) as [q E].
  assert (strings.TrimLeft (strings.TrimRight u) = strings.TrimRight u) as F.
  { apply strip_fixed. apply width_app_0 with (t := q). rewrite <- E.
    apply strip_width. }
  rewrite F. apply TrimRight_idem.
Qed.

(** Trimming a trimmed string changes nothing. *)
Lemma TrimSpace_idem (s : string) :
  strings.TrimSpace (strings.TrimSpace s) = strings.TrimSpace s.
Proof.
  unfold strings.TrimSpace.
  rewrite list_ascii_of_string_of_list_ascii, trim_idem. reflexivity.
Qed.

Lemma trim_padded (ws h ws' : list byte) :
  AllSpace ws -> AllSpace ws' -> Forall hexdigit h -> h <> [] ->
  strings.TrimRight (strings.TrimLeft (ws ++ h ++ ws')) = h.
Proof.
  intros Hw Hw' Hh Hne.
  rewrite TrimLeft_spaces_app by exact Hw.
  assert (strings.TrimLeft (h ++ ws') = h ++ ws') as ->.
  { destruct h as [|x h']; [contradiction|]. simpl.
    apply strip_plain. apply hexdigit_plain. inversion Hh; assumption. }
  rewrite TrimRight_app_spaces by exact Hw'.
  unfold strings.TrimRight.
  assert (Forall hexdigit (rev h)) as Hr by (apply Forall_rev; exact Hh).
  destruct (rev h) as [|y r] eqn:E.
  - apply (f_equal (@rev byte)) in E. rewrite rev_involutive in E.
    simpl in E. contradiction.
  - rewrite strip_plain.
    + rewrite <- E. apply rev_involutive.
    + apply hexdigit_plain_rev. inversion Hr; assumption.
Qed.

Lemma list_ascii_of_string_app (a b : string) :
  list_ascii_of_string (a ++ b)%string
  = list_ascii_of_string a ++ list_ascii_of_string b.
Proof. induction a as [|c a IH]; simpl; [reflexivity | rewrite IH; reflexivity]. Qed.

Lemma Decode_hexdigits (n : nat) :
  forall s l, String.length s <= n -> hex.Decode s = Some l ->
              Forall hexdigit (list_ascii_of_string s).
Proof.
  induction n as [|n IH]; intros s l L D.
  - destruct s; [constructor | simpl in L; lia].
  - destruct s as [|p [|q rest]]; [constructor | discriminate |].
    cbn [hex.Decode] in D.
    destruct (hex.fromHexChar p) eqn:Ep; [|discriminate].
    destruct (hex.fromHexChar q) eqn:Eq; [|discriminate].
    destruct (hex.Decode rest) as [bs|] eqn:Er; [|discriminate].
    simpl. constructor; [unfold hexdigit; congruence|].
    constructor; [unfold hexdigit; congruence|].
    apply (IH rest bs); [simpl in L; lia | exact Er].
Qed.

Lemma valid_hexdigits (h : string) :
  primitive.IsValidObjectID h = true ->
  Forall hexdigit (list_ascii_of_string h) /\ list_ascii_of_string h <> [].
Proof.
  unfold primitive.IsValidObjectID, primitive.ObjectIDFromHex.
  destruct (Nat.eqb (String.length h) 24) eqn:L; simpl; [|discriminate].
  destruct (hex.Decode h) as [l|] eqn:D; [|discriminate].
  intros _. split.
  - apply (Decode_hexdigits (String.length h) h l); [lia | exact D].
  - apply Nat.eqb_eq in L. destruct h; [discriminate L | discriminate].
Qed.

(** A valid identifier is a fixed point of TrimSpace, also when it is
    surrounded by white space. *)
Lemma TrimSpace_padded (ws h ws' : string) :
  AllSpace (list_ascii_of_string ws) -> AllSpace (list_ascii_of_string ws') ->
  primitive.IsValidObjectID h = true ->
  strings.TrimSpace (ws ++ h ++ ws')%string = h.
Proof.
  intros Hw Hw' Hv. destruct (valid_hexdigits h Hv) as [Hh Hne].
  unfold strings.TrimSpace. rewrite !list_ascii_of_string_app.
  rewrite trim_padded by assumption.
  apply string_of_list_ascii_of_string.
Qed.

Lemma TrimSpace_valid (h : string) :
  primitive.IsValidObjectID h = true -> strings.TrimSpace h = h.
Proof.
  intros Hv.
  pose proof (TrimSpace_padded "" h "" (strings.spaces_nil _ _ _)
                (strings.spaces_nil _ _ _) Hv) as E.
  simpl in E. rewrite <- E at 2. f_equal.
  clear. induction h as [|c h IH]; simpl; [reflexivity | f_equal; exact IH].
Qed.

(** ** The store *)

Lemma has_id_In (id : primitive.ObjectID) (c : list todoModel.t) :
  mongo.has_id id c = true <-> In id (map todoModel.ID c).
Proof.
  unfold mongo.has_id. rewrite existsb_exists, in_map_iff. split.
  - intros (d & Hd & E). apply oid_eqb_eq in E. exists d; split; assumption.
  - intros (d & E & Hd). exists d; split; [exact Hd|]. apply oid_eqb_eq, E.
Qed.

Lemma has_id_app (id : primitive.ObjectID) (c1 c2 : list todoModel.t) :
  mongo.has_id id (c1 ++ c2) = mongo.has_id id c1 || mongo.has_id id c2.
Proof. apply existsb_app. Qed.

Lemma delete_first_absent (id : primitive.ObjectID) (c : list todoModel.t) :
  mongo.has_id id c = false -> mongo.delete_first id c = (c, 0%Z).
Proof.
  induction c as [|d c IH]; simpl; [reflexivity|].
  destruct (primitive.eqb (todoModel.ID d) id); simpl; [discriminate|].
  intros H. rewrite (IH H). reflexivity.
Qed.

Lemma delete_first_count (id : primitive.ObjectID) (c : list todoModel.t) :
  snd (mongo.delete_first id c) = if mongo.has_id id c then 1%Z else 0%Z.
Proof.
  induction c as [|d c IH]; simpl; [reflexivity|].
  destruct (primitive.eqb (todoModel.ID d) id); simpl; [reflexivity|].
  destruct (mongo.delete_first id c) as [c' n]. simpl in *. exact IH.
Qed.

Lemma delete_first_ids (id : primitive.ObjectID) (c : list todoModel.t) :
  forall x, In x (map todoModel.ID (fst (mongo.delete_first id c))) ->
            In x (map todoModel.ID c).
Proof.
  induction c as [|d c IH]; simpl; [tauto|].
  destruct (primitive.eqb (todoModel.ID d) id); simpl; [tauto|].
  destruct (mongo.delete_first id c) as [c' n]. simpl in *.
  intros x [E|H]; [left; exact E | right; apply IH, H].
Qed.

Lemma delete_first_unique (id : primitive.ObjectID) (c : list todoModel.t) :
  unique_ids c -> unique_ids (fst (mongo.delete_first id c)).
Proof.
  unfold unique_ids. induction c as [|d c IH]; simpl; [tauto|].
  intros U. inversion U as [|? ? Hn U']; subst.
  destruct (primitive.eqb (todoModel.ID d) id); simpl; [exact U'|].
  pose proof (delete_first_ids id c) as S.
  destruct (mongo.delete_first id c) as [c' n]. simpl in *.
  constructor; [intros H; apply Hn, S, H | apply IH, U'].
Qed.

(** Once deleted, an identifier is no longer in the collection. *)
Lemma delete_first_gone (id : primitive.ObjectID) (c : list todoModel.t) :
  unique_ids c -> mongo.has_id id (fst (mongo.delete_first id c)) = false.
Proof.
  unfold unique_ids. induction c as [|d c IH]; simpl; [reflexivity|].
  intros U. inversion U as [|? ? Hn U']; subst.
  destruct (primitive.eqb (todoModel.ID d) id) eqn:E; simpl.
  - apply oid_eqb_eq in E. subst id.
    destruct (mongo.has_id (todoModel.ID d) c) eqn:F; [|reflexivity].
    apply has_id_In in F. contradiction.
  - specialize (IH U'). destruct (mongo.delete_first id c) as [c' n].
    simpl in *. rewrite E. exact IH.
Qed.

Lemma update_first_absent (id : primitive.ObjectID) ti co (c : list todoModel.t) :
  mongo.has_id id c = false -> mongo.update_first id ti co c = (c, 0%Z).
Proof.
  induction c as [|d c IH]; simpl; [reflexivity|].
  destruct (primitive.eqb (todoModel.ID d) id); simpl; [discriminate|].
  intros H. rewrite (IH H). reflexivity.
Qed.

Lemma update_first_ids (id : primitive.ObjectID) ti co (c : list todoModel.t) :
  map todoModel.ID (fst (mongo.update_first id ti co c)) = map todoModel.ID c.
Proof.
  induction c as [|d c IH]; simpl; [reflexivity|].
  destruct (primitive.eqb (todoModel.ID d) id); simpl; [reflexivity|].
  destruct (mongo.update_first id ti co c) as [c' n]. simpl in *.
  rewrite IH. reflexivity.
Qed.

(** UpdateOne rewrites the title and the completed flag of one document,
    the first whose _id matches, and nothing else. *)
Lemma update_first_shape (id : primitive.ObjectID) ti co (c : list todoModel.t) :
  fst (mongo.update_first id ti co c) = c
  \/ exists l1 d l2,
      c = l1 ++ d :: l2 /\ todoModel.ID d = id
      /\ mongo.has_id id l1 = false
      /\ fst (mongo.update_first id ti co c)
         = l1 ++ todoModel.mk (todoModel.ID d) ti co (todoModel.CreateAt d) :: l2.
Proof.
  induction c as [|d c IH]; simpl; [left; reflexivity|].
  destruct (primitive.eqb (todoModel.ID d) id) eqn:E; simpl.
  - right. exists [], d, c. apply oid_eqb_eq in E. repeat split; assumption.
  - destruct (mongo.update_first id ti co c) as [c' n]. simpl in *.
    destruct IH as [-> | (l1 & x & l2 & -> & Hx & Hl & ->)]; [left; reflexivity|].
    right. exists (d :: l1), x, l2. simpl. rewrite E, Hl. repeat split; assumption.
Qed.

Lemma fold_append_elems {A B : Type} (f : A -> B) (l : list A) (acc : slice B) :
  elems (fold_left (fun a x => append a (f x)) l acc) = elems acc ++ map f l.
Proof.
  revert acc; induction l as [|x l IH]; intros acc; simpl.
  - rewrite app_nil_r. reflexivity.
  - rewrite IH. destruct acc as [a|]; simpl; [rewrite <- app_assoc|]; reflexivity.
Qed.

Lemma fold_append_nil {A B : Type} (f : A -> B) (l : list A) :
  fold_left (fun a x => append a (f x)) l None = None <-> l = [].
Proof.
  split; [|intros ->; reflexivity].
  destruct l as [|x l]; [reflexivity|]. simpl. intros H. exfalso.
  assert (forall (l : list A) (a : list B),
             fold_left (fun a x => append a (f x)) l (Some a) <> None) as K.
  { clear. induction l as [|y l IH]; intros a; simpl; [discriminate | apply IH]. }
  exact (K _ _ H).
Qed.

Lemma find_view_absent (id : primitive.ObjectID) (c : list todoModel.t) :
  mongo.has_id id c = false ->
  find_view (primitive.Hex id) (map toView c) = None.
Proof.
  unfold find_view. induction c as [|d c IH]; simpl; [reflexivity|].
  rewrite orb_false_iff. intros [E H].
  destruct (String.eqb (primitive.Hex (todoModel.ID d)) (primitive.Hex id)) eqn:F.
  - apply String.eqb_eq, Hex_inj in F. subst id.
    rewrite oid_eqb_refl in E. discriminate.
  - apply IH, H.
Qed.

Lemma find_view_app (id : string) (l1 l2 : list todo.t) :
  find_view id l1 = None -> find_view id (l1 ++ l2) = find_view id l2.
Proof.
  unfold find_view. induction l1 as [|v l1 IH]; simpl; [reflexivity|].
  destruct (String.eqb (todo.ID v) id); [discriminate | exact IH].
Qed.

(** ** The handlers, case by case *)

Lemma title_nonempty (t : todo.t) :
  todo.Title t <> "" -> String.eqb (todo.Title t) "" = false.
Proof. intros H. apply String.eqb_neq, H. Qed.

Lemma createTodos_run (e : Env) (r : Request) (t : todo.t) (db : mongo.Database) :
  Decode r = Some t -> todo.Title t <> "" ->
  createTodos e r db =
    let tm := todoModel.mk (NewObjectID e) (todo.Title t) false (Now e) in
    let calls' := mongo.calls db ++ [mongo.InsertOne (bson.Marshal tm)] in
    match storeErr e with
    | Some msg =>
        (renderer.JSON http.StatusInternalServerError
           [("message", renderer.Str "Failed to save todo");
            ("error", renderer.Str msg)],
         mongo.mkDatabase (mongo.collection db) calls')
    | None =>
        let id := if primitive.IsZero (NewObjectID e) then driverObjectID e
                  else NewObjectID e in
        if mongo.has_id id (mongo.collection db)
        then (renderer.JSON http.StatusInternalServerError
                [("message", renderer.Str "Failed to save todo");
                 ("error", renderer.Str "E11000 duplicate key error")],
              mongo.mkDatabase (mongo.collection db) calls')
        else (renderer.JSON http.StatusOK
                [("message", renderer.Str "Todo successfully saved");
                 ("Todo ID", renderer.Str (primitive.Hex (NewObjectID e)))],
              mongo.mkDatabase
                (mongo.collection db
                   ++ [todoModel.mk id (todo.Title t) false (Now e)])
                calls')
    end.
Proof.
  intros HD HT. unfold createTodos. rewrite HD, (title_nonempty t HT).
  unfold Collection.InsertOne, mongo.bind, mongo.called, mongo.documents,
    mongo.store, mongo.ret, bson.Marshal. simpl.
  destruct (storeErr e); [reflexivity|].
  destruct (primitive.IsZero (NewObjectID e)); simpl;
    match goal with |- context [mongo.has_id ?i ?c] =>
      destruct (mongo.has_id i c) end; reflexivity.
Qed.

Lemma deleteTodo_run (e : Env) (r : Request) (db : mongo.Database) :
  primitive.IsValidObjectID (strings.TrimSpace (URLParam_id r)) = true ->
  deleteTodo e r db =
    let objectID := objectID_of (strings.TrimSpace (URLParam_id r)) in
    let calls' := mongo.calls db ++ [mongo.DeleteOne objectID] in
    match storeErr e with
    | Some msg =>
        (renderer.JSON http.StatusInternalServerError
           [("message", renderer.Str "Failed to delete TODO");
            ("error", renderer.Str msg)],
         mongo.mkDatabase (mongo.collection db) calls')
    | None =>
        (if mongo.has_id objectID (mongo.collection db)
         then renderer.JSON http.StatusOK
                [("message", renderer.Str "Successfully deleted TODO")]
         else renderer.JSON http.StatusNotFound
                [("message", renderer.Str "Todo not found")],
         mongo.mkDatabase
           (fst (mongo.delete_first objectID (mongo.collection db))) calls')
    end.
Proof.
  intros HV. unfold deleteTodo. rewrite HV. simpl negb. cbv iota. cbv zeta.
  unfold Collection.DeleteOne, mongo.bind, mongo.called, mongo.documents,
    mongo.store, mongo.ret. simpl.
  destruct (storeErr e); [reflexivity|]. cbn [mongo.collection mongo.calls].
  pose proof (delete_first_count (objectID_of (strings.TrimSpace (URLParam_id r)))
                (mongo.collection db)) as C.
  revert C.
  destruct (mongo.delete_first (objectID_of (strings.TrimSpace (URLParam_id r)))
              (mongo.collection db)) as [c' n].
  simpl. intros ->.
  destruct (mongo.has_id _ (mongo.collection db)); reflexivity.
Qed.

Lemma updateTodo_run (e : Env) (r : Request) (t : todo.t) (db : mongo.Database) :
  primitive.IsValidObjectID (strings.TrimSpace (URLParam_id r)) = true ->
  Decode r = Some t -> todo.Title t <> "" ->
  updateTodo e r db =
    let objectID := objectID_of (strings.TrimSpace (URLParam_id r)) in
    let calls' :=
      mongo.calls db
        ++ [mongo.UpdateOne objectID (todo.Title t) (todo.Completed t)] in
    match storeErr e with
    | Some msg =>
        (renderer.JSON http.StatusInternalServerError
           [("message", renderer.Str "Failed to update todo");
            ("error", renderer.Str msg)],
         mongo.mkDatabase (mongo.collection db) calls')
    | None =>
        (renderer.JSON http.StatusOK
           [("message", renderer.Str "Successfully updated TODO")],
         mongo.mkDatabase
           (fst (mongo.update_first objectID (todo.Title t) (todo.Completed t)
                   (mongo.collection db)))
           calls')
    end.
Proof.
  intros HV HD HT. unfold updateTodo. rewrite HV, HD, (title_nonempty t HT).
  simpl negb. cbv iota. cbv zeta.
  unfold Collection.UpdateOne, mongo.bind, mongo.called, mongo.documents,
    mongo.store, mongo.ret. simpl.
  destruct (storeErr e); [reflexivity|]. cbn [mongo.collection mongo.calls].
  destruct (mongo.update_first _ _ _ (mongo.collection db)) as [c' n].
  reflexivity.
Qed.

Lemma invalid_id_rejected (e : Env) (r : Request) (db : mongo.Database) :
  primitive.IsValidObjectID (strings.TrimSpace (URLParam_id r)) = false ->
  deleteTodo e r db
    = (renderer.JSON http.StatusBadRequest [("message", renderer.Str "Invalid ID")], db)
  /\ updateTodo e r db
    = (renderer.JSON http.StatusBadRequest [("message", renderer.Str "Invalid ID")], db).
Proof.
  intros HV. unfold deleteTodo, updateTodo. rewrite HV. split; reflexivity.
Qed.

Lemma fetchTodos_run (e : Env) (db : mongo.Database) :
  fetchTodos e db =
    match storeErr e with
    | Some msg =>
        (renderer.JSON http.StatusInternalServerError
           [("message", renderer.Str "Failed to fetch todo");
            ("error", renderer.Str msg)],
         mongo.mkDatabase (mongo.collection db) (mongo.calls db ++ [mongo.Find]))
    | None =>
        let calls' := (mongo.calls db ++ [mongo.Find]) ++ [mongo.CursorAll] in
        match cursorErr e with
        | Some msg =>
            (renderer.JSON http.StatusInternalServerError
               [("message", renderer.Str "Failed to decode todos");
                ("error", renderer.Str msg)],
             mongo.mkDatabase (mongo.collection db) calls')
        | None =>
            (renderer.JSON http.StatusOK
               [("data",
                 renderer.Todos
                   (fold_left (fun acc t => append acc (toView t))
                      (mongo.collection db) None))],
             mongo.mkDatabase (mongo.collection db) calls')
        end
    end.
Proof.
  unfold fetchTodos, Collection.Find, Collection.All, mongo.bind, mongo.called,
    mongo.documents, mongo.ret. simpl.
  destruct (storeErr e); [reflexivity|]. simpl.
  destruct (cursorErr e); reflexivity.
Qed.

(** ** Invariants of the collection *)

(** No request changes the identifier of a stored document through Update. *)
Lemma updateTodo_ids (e : Env) (r : Request) (db : mongo.Database) :
  map todoModel.ID (mongo.collection (snd (updateTodo e r db)))
  = map todoModel.ID (mongo.collection db).
Proof.
  destruct (primitive.IsValidObjectID (strings.TrimSpace (URLParam_id r))) eqn:HV.
  - destruct (Decode r) as [t|] eqn:HD.
    + destruct (String.eqb (todo.Title t) "") eqn:HT.
      * unfold updateTodo. rewrite HV, HD, HT. reflexivity.
      * apply String.eqb_neq in HT.
        rewrite (updateTodo_run e r t db HV HD HT). cbv zeta.
        destruct (storeErr e); cbn [snd mongo.collection]; [reflexivity|].
        apply update_first_ids.
    + unfold updateTodo. rewrite HV, HD. reflexivity.
  - destruct (invalid_id_rejected e r db HV) as [_ ->]. reflexivity.
Qed.

Lemma NoDup_snoc {A : Type} (l : list A) (a : A) :
  NoDup l -> ~ In a l -> NoDup (l ++ [a]).
Proof.
  induction l as [|x l IH]; simpl; intros U N.
  - constructor; [tauto | constructor].
  - inversion U as [|? ? Hx U']; subst. constructor.
    + rewrite in_app_iff. simpl. intros [H|[H|[]]]; [tauto|]. subst. tauto.
    + apply IH; [exact U' | tauto].
Qed.

(** Every handler keeps the identifiers of the collection distinct. *)
Lemma handlers_keep_unique_ids (e : Env) (r : Request) (db : mongo.Database) :
  unique_ids (mongo.collection db) ->
  unique_ids (mongo.collection (snd (fetchTodos e db)))
  /\ unique_ids (mongo.collection (snd (createTodos e r db)))
  /\ unique_ids (mongo.collection (snd (updateTodo e r db)))
  /\ unique_ids (mongo.collection (snd (deleteTodo e r db))).
Proof.
  intros U. repeat split.
  - rewrite fetchTodos_run.
    destruct (storeErr e); [exact U|]. cbv zeta.
    destruct (cursorErr e); exact U.
  - destruct (Decode r) as [t|] eqn:HD.
    + destruct (String.eqb (todo.Title t) "") eqn:HT.
      * unfold createTodos. rewrite HD, HT. exact U.
      * apply String.eqb_neq in HT.
        rewrite (createTodos_run e r t db HD HT). cbv zeta.
        destruct (storeErr e); [exact U|].
        match goal with |- context [mongo.has_id ?i ?c] =>
          destruct (mongo.has_id i c) eqn:HN end; [exact U|].
        cbn [snd mongo.collection]. unfold unique_ids.
        rewrite map_app. apply NoDup_snoc; [exact U|].
        cbn [map todoModel.ID]. intros H. apply has_id_In in H. congruence.
    + unfold createTodos. rewrite HD. exact U.
  - unfold unique_ids. rewrite updateTodo_ids. exact U.
  - destruct (primitive.IsValidObjectID (strings.TrimSpace (URLParam_id r))) eqn:HV.
    + rewrite (deleteTodo_run e r db HV). cbv zeta.
      destruct (storeErr e); cbn [snd mongo.collection]; [exact U|].
      apply delete_first_unique, U.
    + destruct (invalid_id_rejected e r db HV) as [-> _]. exact U.
Qed.

(** ** The contract *)

(** C1. Create then List: when a create request decodes, has a non-empty
    title and succeeds, the identifier it returns, looked up in the views
    of a following List, finds a view with the submitted title and
    completed = false, whatever completed value the request carried.  The
    identifier NewObjectID produced is taken to be non-zero. *)
Theorem C1_create_then_list (e e' : Env) (r : Request) (t : todo.t)
  (db db' : mongo.Database) (resp : renderer.Response) :
  Decode r = Some t -> todo.Title t <> "" ->
  primitive.IsZero (NewObjectID e) = false ->
  createTodos e r db = (resp, db') -> renderer.Status resp = http.StatusOK ->
  storeErr e' = None -> cursorErr e' = None ->
  exists id views v,
    field_of "Todo ID" resp = Some id
    /\ renderer.Status (fst (fetchTodos e' db')) = http.StatusOK
    /\ data_of (fst (fetchTodos e' db')) = Some views
    /\ find_view id (elems views) = Some v
    /\ todo.Title v = todo.Title t
    /\ todo.Completed v = false.
Proof.
  intros HD HT HZ HC HS HE1 HE2.
  rewrite (createTodos_run e r t db HD HT) in HC. cbv zeta in HC.
  rewrite HZ in HC.
  destruct (storeErr e).
  { injection HC as <- _. discriminate HS. }
  destruct (mongo.has_id (NewObjectID e) (mongo.collection db)) eqn:HN.
  { injection HC as <- _. discriminate HS. }
  injection HC as <- <-.
  rewrite fetchTodos_run, HE1, HE2. cbv zeta.
  eexists _, _, _. split; [reflexivity|]. split; [reflexivity|].
  split; [reflexivity|]. cbn [mongo.collection].
  rewrite fold_append_elems, map_app. cbn [elems app map].
  rewrite find_view_app by (apply find_view_absent, HN).
  unfold find_view, toView. cbn [find todo.ID todoModel.ID].
  rewrite String.eqb_refl. repeat split.
Qed.

Lemma C1_create_then_list_witness :
  exists id views v,
    field_of "Todo ID" (fst (createTodos env0 post_buy_milk empty_db)) = Some id
    /\ renderer.Status (fst (fetchTodos env0 db_X)) = http.StatusOK
    /\ data_of (fst (fetchTodos env0 db_X)) = Some views
    /\ find_view id (elems views) = Some v
    /\ todo.Title v = "Buy milk"
    /\ todo.Completed v = false.
Proof.
  apply (C1_create_then_list env0 env0 post_buy_milk
           (todo.mk "" "Buy milk" true 0%Z) empty_db db_X
           (fst (createTodos env0 post_buy_milk empty_db)));
    try reflexivity; discriminate.
Defined.

(** C2. Update does not report a missing identifier: with a valid path
    identifier, a decoded body and a non-empty title, Update answers 200
    whenever the store call does not fail, whether or not the identifier is
    stored; when it is not stored the collection is left as it was, and
    Delete on the same identifier answers 404. *)
Theorem C2_update_ignores_existence (e : Env) (r : Request) (t : todo.t)
  (db : mongo.Database) :
  primitive.IsValidObjectID (URLParam_id r) = true ->
  Decode r = Some t -> todo.Title t <> "" -> storeErr e = None ->
  renderer.Status (fst (updateTodo e r db)) = http.StatusOK
  /\ (mongo.has_id (objectID_of (URLParam_id r)) (mongo.collection db) = false ->
      mongo.collection (snd (updateTodo e r db)) = mongo.collection db
      /\ renderer.Status (fst (deleteTodo e r db)) = http.StatusNotFound).
Proof.
  intros HR HD HT HE.
  assert (primitive.IsValidObjectID (strings.TrimSpace (URLParam_id r)) = true)
    as HV by (rewrite TrimSpace_valid; assumption).
  rewrite (updateTodo_run e r t db HV HD HT), (deleteTodo_run e r db HV).
  cbv zeta. rewrite HE, (TrimSpace_valid _ HR). split; [reflexivity|].
  intros HN. cbn [fst snd mongo.collection].
  rewrite update_first_absent by exact HN. rewrite HN. split; reflexivity.
Qed.

Lemma C2_update_ignores_existence_witness :
  renderer.Status (fst (updateTodo env0 put_X empty_db)) = http.StatusOK
  /\ (mongo.has_id (objectID_of (URLParam_id put_X))
        (mongo.collection empty_db) = false ->
      mongo.collection (snd (updateTodo env0 put_X empty_db))
        = mongo.collection empty_db
      /\ renderer.Status (fst (deleteTodo env0 put_X empty_db))
        = http.StatusNotFound).
Proof.
  apply (C2_update_ignores_existence env0 put_X
           (todo.mk "" "Buy milk" true 0%Z) empty_db);
    try reflexivity; discriminate.
Defined.

(** C3, as the contract words it, fails: in the scenario the document the
    handler submits to InsertOne already carries an identifier, the one
    NewObjectID produced in the handler, and the stored document keeps it;
    it is not the identifier the driver would have assigned. *)
Lemma C3_store_assigns_id_counterexample :
  renderer.Status (fst (createTodos env0 post_buy_milk empty_db)) = http.StatusOK
  /\ map bson._id (inserted (mongo.calls db_X)) = [Some id_X]
  /\ map todoModel.ID (mongo.collection db_X) = [id_X]
  /\ id_X <> driverObjectID env0.
Proof.
  repeat split. intros H. apply (f_equal primitive.bytes) in H. discriminate H.
Qed.

(** C3, amended.  For every create request that stores a document, the
    identifier is produced in the handler by NewObjectID before the insert
    and, being non-zero, is submitted with the document as its _id; the
    store keeps that identifier, which is the one returned to the client;
    and no later update changes the identifier of a stored document. *)
Theorem C3_id_from_handler (e : Env) (r : Request) (t : todo.t)
  (db db' : mongo.Database) (resp : renderer.Response) :
  Decode r = Some t ->
  primitive.IsZero (NewObjectID e) = false ->
  createTodos e r db = (resp, db') -> renderer.Status resp = http.StatusOK ->
  (exists doc,
      mongo.calls db' = mongo.calls db ++ [mongo.InsertOne doc]
      /\ bson._id doc = Some (NewObjectID e))
  /\ (exists tm,
        mongo.collection db' = mongo.collection db ++ [tm]
        /\ todoModel.ID tm = NewObjectID e
        /\ mongo.has_id (NewObjectID e) (mongo.collection db) = false)
  /\ field_of "Todo ID" resp = Some (primitive.Hex (NewObjectID e))
  /\ (forall e2 r2,
        map todoModel.ID (mongo.collection (snd (updateTodo e2 r2 db')))
        = map todoModel.ID (mongo.collection db')).
Proof.
  intros HD HZ HC HS.
  assert (todo.Title t <> "") as HT.
  { intros E. unfold createTodos in HC. rewrite HD, E in HC. simpl in HC.
    injection HC as <- _. discriminate HS. }
  rewrite (createTodos_run e r t db HD HT) in HC. cbv zeta in HC.
  unfold bson.Marshal in HC. cbn [todoModel.ID] in HC. rewrite HZ in HC.
  destruct (storeErr e).
  { injection HC as <- _. discriminate HS. }
  destruct (mongo.has_id (NewObjectID e) (mongo.collection db)) eqn:HN.
  { injection HC as <- _. discriminate HS. }
  injection HC as <- <-. cbn [mongo.calls mongo.collection].
  split; [eexists; split; reflexivity|].
  split; [eexists; repeat split; exact HN|].
  split; [reflexivity|].
  intros e2 r2. apply updateTodo_ids.
Qed.

Lemma C3_id_from_handler_witness :
  (exists doc,
      mongo.calls db_X = mongo.calls empty_db ++ [mongo.InsertOne doc]
      /\ bson._id doc = Some (NewObjectID env0))
  /\ (exists tm,
        mongo.collection db_X = mongo.collection empty_db ++ [tm]
        /\ todoModel.ID tm = NewObjectID env0
        /\ mongo.has_id (NewObjectID env0) (mongo.collection empty_db) = false)
  /\ field_of "Todo ID" (fst (createTodos env0 post_buy_milk empty_db))
     = Some (primitive.Hex (NewObjectID env0))
  /\ (forall e2 r2,
        map todoModel.ID (mongo.collection (snd (updateTodo e2 r2 db_X)))
        = map todoModel.ID (mongo.collection db_X)).
Proof.
  apply (C3_id_from_handler env0 post_buy_milk (todo.mk "" "Buy milk" true 0%Z)
           empty_db db_X (fst (createTodos env0 post_buy_milk empty_db)));
    reflexivity.
Defined.

Lemma delete_first_length (id : primitive.ObjectID) (c : list todoModel.t) :
  (Z.of_nat (List.length c)
   - Z.of_nat (List.length (fst (mongo.delete_first id c))))%Z
  = if mongo.has_id id c then 1%Z else 0%Z.
Proof.
  induction c as [|d c IH]; [reflexivity|].
  cbn [mongo.delete_first mongo.has_id existsb].
  destruct (primitive.eqb (todoModel.ID d) id); cbn [orb fst List.length].
  - lia.
  - fold (mongo.has_id id c). revert IH.
    destruct (mongo.delete_first id c) as [c' n]. cbn [fst List.length]. lia.
Qed.

(** C4, as the contract words it, fails: the identifier of this request
    is X between two blanks, which is not a valid ObjectID as it stands in
    the path, and Delete answers 200, not 400, because it validates the
    trimmed identifier. *)
Lemma C4_padded_id_not_400_counterexample :
  primitive.IsValidObjectID (URLParam_id delete_blank_X) = false
  /\ storeErr env0 = None
  /\ renderer.Status (fst (deleteTodo env0 delete_blank_X db_X)) = http.StatusOK
  /\ renderer.Status (fst (deleteTodo env0 delete_blank_X db_X))
     <> http.StatusBadRequest.
Proof. repeat split. discriminate. Qed.

(** C4, amended.  The status of Delete: 400 when the path identifier,
    trimmed of leading and trailing white space, is not a valid ObjectID;
    otherwise 500 when the store call fails; otherwise 404 when no document
    was removed, and 200 when one was.  After a delete that reached the
    store, a second delete of the same identifier answers 404 when its own
    store call does not fail. *)
Theorem C4_delete_status (e : Env) (r : Request) (db : mongo.Database) :
  renderer.Status (fst (deleteTodo e r db))
  = (if negb (primitive.IsValidObjectID (strings.TrimSpace (URLParam_id r)))
     then http.StatusBadRequest
     else match storeErr e with
          | Some _ => http.StatusInternalServerError
          | None =>
              if (removed db (snd (deleteTodo e r db)) =? 0)%Z
              then http.StatusNotFound
              else http.StatusOK
          end)
  /\ (unique_ids (mongo.collection db) ->
      primitive.IsValidObjectID (strings.TrimSpace (URLParam_id r)) = true ->
      storeErr e = None ->
      forall e2, storeErr e2 = None ->
        renderer.Status (fst (deleteTodo e2 r (snd (deleteTodo e r db))))
        = http.StatusNotFound).
Proof.
  split.
  - destruct (primitive.IsValidObjectID (strings.TrimSpace (URLParam_id r))) eqn:HV.
    + rewrite (deleteTodo_run e r db HV). cbv zeta. simpl negb. cbv iota.
      destruct (storeErr e); [reflexivity|].
      unfold removed. cbn [fst snd mongo.collection].
      rewrite delete_first_length.
      destruct (mongo.has_id _ (mongo.collection db)); reflexivity.
    + destruct (invalid_id_rejected e r db HV) as [-> _]. reflexivity.
  - intros HU HV HE e2 HE2.
    rewrite (deleteTodo_run e r db HV). cbv zeta. rewrite HE. cbn [snd].
    rewrite (deleteTodo_run e2 r _ HV). cbv zeta. rewrite HE2.
    cbn [fst mongo.collection].
    rewrite delete_first_gone by exact HU. reflexivity.
Qed.

Lemma C4_delete_status_witness :
  renderer.Status (fst (deleteTodo env0 delete_X db_X)) = http.StatusOK
  /\ renderer.Status
       (fst (deleteTodo env0 delete_X (snd (deleteTodo env0 delete_X db_X))))
     = http.StatusNotFound.
Proof.
  split; [reflexivity|].
  apply (proj2 (C4_delete_status env0 delete_X db_X)); try reflexivity.
  repeat constructor. simpl. tauto.
Defined.

(** C5. A create request whose body does not decode, or whose decoded
    title is empty, is answered 400 and leaves the database as it was: no
    document is inserted and the store is not called. *)
Theorem C5_create_rejects (e : Env) (r : Request) (db : mongo.Database) :
  (Decode r = None \/ exists t, Decode r = Some t /\ todo.Title t = "") ->
  renderer.Status (fst (createTodos e r db)) = http.StatusBadRequest
  /\ snd (createTodos e r db) = db.
Proof.
  unfold createTodos. intros [-> | (t & -> & ->)]; split; reflexivity.
Qed.

Lemma C5_create_rejects_witness :
  renderer.Status
    (fst (createTodos env0 (mkRequest "" (Some (todo.mk "" "" true 0%Z))) db_X))
  = http.StatusBadRequest
  /\ snd (createTodos env0 (mkRequest "" (Some (todo.mk "" "" true 0%Z))) db_X)
     = db_X.
Proof.
  apply (C5_create_rejects env0 (mkRequest "" (Some (todo.mk "" "" true 0%Z))) db_X).
  right. exists (todo.mk "" "" true 0%Z). split; reflexivity.
Defined.

(** C6. A successful update changes at most one document, the one matched
    by the identifier, and of that document only the title and the
    completed flag: its id and createAt stay, every other document stays,
    and so does the order of the collection. *)
Theorem C6_update_frame (e : Env) (r : Request) (t : todo.t)
  (db db' : mongo.Database) (resp : renderer.Response) :
  primitive.IsValidObjectID (URLParam_id r) = true ->
  Decode r = Some t -> todo.Title t <> "" ->
  updateTodo e r db = (resp, db') -> renderer.Status resp = http.StatusOK ->
  mongo.collection db' = mongo.collection db
  \/ exists l1 d l2,
      mongo.collection db = l1 ++ d :: l2
      /\ todoModel.ID d = objectID_of (URLParam_id r)
      /\ mongo.has_id (objectID_of (URLParam_id r)) l1 = false
      /\ mongo.collection db'
         = l1 ++ {| todoModel.ID := todoModel.ID d;
                    todoModel.Title := todo.Title t;
                    todoModel.Completed := todo.Completed t;
                    todoModel.CreateAt := todoModel.CreateAt d |} :: l2.
Proof.
  intros HR HD HT HU HS.
  assert (primitive.IsValidObjectID (strings.TrimSpace (URLParam_id r)) = true)
    as HV by (rewrite TrimSpace_valid; assumption).
  rewrite (updateTodo_run e r t db HV HD HT) in HU. cbv zeta in HU.
  rewrite (TrimSpace_valid _ HR) in HU.
  destruct (storeErr e).
  { injection HU as <- _. discriminate HS. }
  injection HU as _ <-. cbn [mongo.collection].
  destruct (update_first_shape (objectID_of (URLParam_id r))
              (todo.Title t) (todo.Completed t) (mongo.collection db))
    as [E | (l1 & d & l2 & E1 & E2 & E4 & E3)].
  - left. exact E.
  - right. exists l1, d, l2. repeat split; assumption.
Qed.

Lemma C6_update_frame_witness :
  mongo.collection (snd (updateTodo env0 put_X db_X)) = mongo.collection db_X
  \/ exists l1 d l2,
      mongo.collection db_X = l1 ++ d :: l2
      /\ todoModel.ID d = objectID_of (URLParam_id put_X)
      /\ mongo.has_id (objectID_of (URLParam_id put_X)) l1 = false
      /\ mongo.collection (snd (updateTodo env0 put_X db_X))
         = l1 ++ {| todoModel.ID := todoModel.ID d;
                    todoModel.Title := "Buy milk";
                    todoModel.Completed := true;
                    todoModel.CreateAt := todoModel.CreateAt d |} :: l2.
Proof.
  apply (C6_update_frame env0 put_X (todo.mk "" "Buy milk" true 0%Z) db_X
           (snd (updateTodo env0 put_X db_X)) (fst (updateTodo env0 put_X db_X)));
    try reflexivity; discriminate.
Defined.

(** C7, as the contract words it, fails: with X between two blanks in the
    path, which is not a valid ObjectID as it stands, Update and Delete do
    not answer 400 and do call the store; Delete removes the document. *)
Lemma C7_padded_id_reaches_store_counterexample :
  primitive.IsValidObjectID (URLParam_id put_blank_X) = false
  /\ renderer.Status (fst (updateTodo env0 put_blank_X db_X)) = http.StatusOK
  /\ mongo.calls (snd (updateTodo env0 put_blank_X db_X))
     = mongo.calls db_X ++ [mongo.UpdateOne id_X "Buy milk" true]
  /\ primitive.IsValidObjectID (URLParam_id delete_blank_X) = false
  /\ renderer.Status (fst (deleteTodo env0 delete_blank_X db_X)) = http.StatusOK
  /\ mongo.calls (snd (deleteTodo env0 delete_blank_X db_X))
     = mongo.calls db_X ++ [mongo.DeleteOne id_X]
  /\ mongo.collection db_X <> []
  /\ mongo.collection (snd (deleteTodo env0 delete_blank_X db_X)) = [].
Proof. repeat split. discriminate. Qed.

(** C7, amended.  When the path identifier of an Update or Delete request,
    trimmed of leading and trailing white space, is not a valid ObjectID,
    the handler answers 400 and the database is exactly as before: no
    document changed and no driver call was made. *)
Theorem C7_invalid_id_no_store_call (e : Env) (r : Request) (db : mongo.Database) :
  primitive.IsValidObjectID (strings.TrimSpace (URLParam_id r)) = false ->
  (renderer.Status (fst (updateTodo e r db)) = http.StatusBadRequest
   /\ snd (updateTodo e r db) = db
   /\ mongo.calls (snd (updateTodo e r db)) = mongo.calls db)
  /\ (renderer.Status (fst (deleteTodo e r db)) = http.StatusBadRequest
      /\ snd (deleteTodo e r db) = db
      /\ mongo.calls (snd (deleteTodo e r db)) = mongo.calls db).
Proof.
  intros HV. destruct (invalid_id_rejected e r db HV) as [-> ->].
  repeat split.
Qed.

Lemma C7_invalid_id_no_store_call_witness :
  (renderer.Status (fst (updateTodo env0 delete_not_an_id db_X))
   = http.StatusBadRequest
   /\ snd (updateTodo env0 delete_not_an_id db_X) = db_X
   /\ mongo.calls (snd (updateTodo env0 delete_not_an_id db_X)) = mongo.calls db_X)
  /\ (renderer.Status (fst (deleteTodo env0 delete_not_an_id db_X))
      = http.StatusBadRequest
      /\ snd (deleteTodo env0 delete_not_an_id db_X) = db_X
      /\ mongo.calls (snd (deleteTodo env0 delete_not_an_id db_X)) = mongo.calls db_X).
Proof.
  apply (C7_invalid_id_no_store_call env0 delete_not_an_id db_X). reflexivity.
Defined.

(** C8. List: when Find and the cursor succeed the answer is 200 with the
    body {data: views}, one view per stored document and in their order,
    each with the identifier in hex and the title, the completed flag and
    the creation time of its document; when Find or the cursor fails the
    answer is 500 with a message and the error. *)
Theorem C8_list (e : Env) (db : mongo.Database) :
  match storeErr e, cursorErr e with
  | None, None =>
      renderer.Status (fst (fetchTodos e db)) = http.StatusOK
      /\ exists views,
          renderer.Body (fst (fetchTodos e db)) = [("data", renderer.Todos views)]
          /\ Forall2
               (fun d v =>
                  todo.ID v = primitive.Hex (todoModel.ID d)
                  /\ todo.Title v = todoModel.Title d
                  /\ todo.Completed v = todoModel.Completed d
                  /\ todo.CreatedAt v = todoModel.CreateAt d)
               (mongo.collection db) (elems views)
  | Some msg, _ | None, Some msg =>
      renderer.Status (fst (fetchTodos e db)) = http.StatusInternalServerError
      /\ field_of "error" (fst (fetchTodos e db)) = Some msg
      /\ exists m, field_of "message" (fst (fetchTodos e db)) = Some m
  end.
Proof.
  rewrite fetchTodos_run. cbv zeta.
  destruct (storeErr e) as [msg|].
  { repeat split. eexists; reflexivity. }
  destruct (cursorErr e) as [msg|].
  { repeat split. eexists; reflexivity. }
  split; [reflexivity|]. eexists. split; [reflexivity|].
  rewrite fold_append_elems. cbn [elems app].
  induction (mongo.collection db) as [|d c IH]; simpl; constructor.
  - repeat split.
  - exact IH.
Qed.

(** C9. With no document in the collection List answers 200 and the data
    field is a nil slice, which is encoded as null and not as an empty
    array. *)
Theorem C9_empty_list_is_null (e : Env) (db : mongo.Database) :
  storeErr e = None -> cursorErr e = None -> mongo.collection db = [] ->
  renderer.Status (fst (fetchTodos e db)) = http.StatusOK
  /\ renderer.get "data" (renderer.Body (fst (fetchTodos e db)))
     = Some (renderer.Todos None)
  /\ option_map json.Marshal
       (renderer.get "data" (renderer.Body (fst (fetchTodos e db))))
     = Some json.Null
  /\ option_map json.Marshal
       (renderer.get "data" (renderer.Body (fst (fetchTodos e db))))
     <> Some (json.Array []).
Proof.
  intros H1 H2 H3. rewrite fetchTodos_run, H1, H2, H3. cbv zeta.
  repeat split. discriminate.
Qed.

Lemma C9_empty_list_is_null_witness :
  renderer.Status (fst (fetchTodos env0 empty_db)) = http.StatusOK
  /\ renderer.get "data" (renderer.Body (fst (fetchTodos env0 empty_db)))
     = Some (renderer.Todos None)
  /\ option_map json.Marshal
       (renderer.get "data" (renderer.Body (fst (fetchTodos env0 empty_db))))
     = Some json.Null
  /\ option_map json.Marshal
       (renderer.get "data" (renderer.Body (fst (fetchTodos env0 empty_db))))
     <> Some (json.Array []).
Proof.
  apply (C9_empty_list_is_null env0 empty_db); reflexivity.
Defined.

(** C10. Update and Delete trim the identifier before validating it: on
    every path identifier the handlers do exactly what they do on its
    trimmed form, so a valid identifier surrounded by white space is not
    rejected with 400. *)
Theorem C10_id_trimmed (e : Env) (r : Request) (db : mongo.Database) :
  deleteTodo e r db
  = deleteTodo e (mkRequest (strings.TrimSpace (URLParam_id r)) (Decode r)) db
  /\ updateTodo e r db
     = updateTodo e (mkRequest (strings.TrimSpace (URLParam_id r)) (Decode r)) db
  /\ (forall ws h ws' : string,
        AllSpace (list_ascii_of_string ws) ->
        AllSpace (list_ascii_of_string ws') ->
        primitive.IsValidObjectID h = true ->
        URLParam_id r = (ws ++ h ++ ws')%string ->
        renderer.Status (fst (deleteTodo e r db)) <> http.StatusBadRequest
        /\ (forall t, Decode r = Some t -> todo.Title t <> "" ->
              renderer.Status (fst (updateTodo e r db)) <> http.StatusBadRequest)).
Proof.
  split; [|split].
  - unfold deleteTodo. cbn [URLParam_id]. rewrite TrimSpace_idem. reflexivity.
  - unfold updateTodo. cbn [URLParam_id Decode]. rewrite TrimSpace_idem.
    reflexivity.
  - intros ws h ws' Hw Hw' Hv Hr.
    assert (primitive.IsValidObjectID (strings.TrimSpace (URLParam_id r)) = true)
      as HV by (rewrite Hr, TrimSpace_padded; assumption).
    split.
    + rewrite (deleteTodo_run e r db HV). cbv zeta.
      destruct (storeErr e); [discriminate|].
      destruct (mongo.has_id _ (mongo.collection db)); discriminate.
    + intros t HD HT. rewrite (updateTodo_run e r t db HV HD HT). cbv zeta.
      destruct (storeErr e); discriminate.
Qed.

Lemma C10_id_trimmed_witness :
  deleteTodo env0 delete_padded_X db_X = deleteTodo env0 delete_X db_X
  /\ renderer.Status (fst (deleteTodo env0 delete_padded_X db_X))
     <> http.StatusBadRequest.
Proof.
  split; [reflexivity|].
  apply (proj2 (proj2 (C10_id_trimmed env0 delete_padded_X db_X))
           (String (ascii_of_N 9) nbsp) "65f1a0b2c3d4e5f601020304"
           (nbsp ++ " ")%string).
  - apply strings.spaces_1; [reflexivity|].
    apply strings.spaces_2; [reflexivity|]. constructor.
  - apply strings.spaces_2; [reflexivity|].
    apply strings.spaces_1; [reflexivity|]. constructor.
  - reflexivity.
  - reflexivity.
Defined.

(** ** The scenario of the contract, run

    POST {"title":"Buy milk"} answers 200 with X; the list holds X; PUT
    answers 200; DELETE answers 200; a second DELETE answers 404. *)
Example scenario :
  let (r1, d1) := createTodos env0 post_buy_milk empty_db in
  let (r2, d2) := fetchTodos env0 d1 in
  let (r3, d3) := updateTodo env0 put_X d2 in
  let (r4, d4) := deleteTodo env0 delete_X d3 in
  let (r5, d5) := deleteTodo env0 delete_X d4 in
  map renderer.Status [r1; r2; r3; r4; r5] = [200; 200; 200; 200; 404]%Z
  /\ field_of "Todo ID" r1 = Some "65f1a0b2c3d4e5f601020304"
  /\ data_of r2
     = Some (Some [todo.mk "65f1a0b2c3d4e5f601020304" "Buy milk" false 1700000000%Z])
  /\ mongo.collection d3 = [todoModel.mk id_X "Buy milk" true 1700000000%Z]
  /\ mongo.collection d5 = [].
Proof. vm_compute. repeat split. Qed.

(** * Further properties of the handlers *)

(** ** Identifiers in canonical form *)

Lemma objectID_of_Hex (o : primitive.ObjectID) : objectID_of (primitive.Hex o) = o.
Proof. unfold objectID_of. rewrite ObjectIDFromHex_Hex. reflexivity. Qed.

Lemma TrimSpace_Hex (o : primitive.ObjectID) :
  strings.TrimSpace (primitive.Hex o) = primitive.Hex o.
Proof. apply TrimSpace_valid, Hex_valid. Qed.

Lemma valid_objectID_of (s : string) :
  primitive.IsValidObjectID s = true ->
  primitive.ObjectIDFromHex s = Some (objectID_of s).
Proof.
  unfold primitive.IsValidObjectID, objectID_of.
  destruct (primitive.ObjectIDFromHex s); [reflexivity | discriminate].
Qed.

Lemma of_bytes_length (l : list byte) :
  List.length l = 12 -> exists o, primitive.of_bytes l = Some o.
Proof.
  intros L. unfold primitive.of_bytes.
  generalize (@eq_refl bool (Nat.eqb (List.length l) 12)).
  generalize (Nat.eqb (List.length l) 12) at 2 3.
  intros [] H; [eexists; reflexivity|].
  rewrite L in H. discriminate H.
Qed.

Lemma Decode_length (n : nat) :
  forall s l, String.length s <= n -> hex.Decode s = Some l ->
              String.length s = 2 * List.length l.
Proof.
  induction n as [|n IH]; intros s l L D.
  - destruct s; [injection D as <-; reflexivity | simpl in L; lia].
  - destruct s as [|p [|q rest]];
      [injection D as <-; reflexivity | discriminate |].
    cbn [hex.Decode] in D.
    destruct (hex.fromHexChar p); [|discriminate].
    destruct (hex.fromHexChar q); [|discriminate].
    destruct (hex.Decode rest) as [bs|] eqn:Er; [|discriminate].
    injection D as <-. simpl in L.
    pose proof (IH rest bs ltac:(lia) Er) as E. simpl. lia.
Qed.

Lemma Decode_hexdigits_total (n : nat) :
  forall s, String.length s = 2 * n ->
            Forall hexdigit (list_ascii_of_string s) ->
            exists l, hex.Decode s = Some l /\ List.length l = n.
Proof.
  induction n as [|n IH]; intros s L F.
  - destruct s; [exists []; split; reflexivity | discriminate L].
  - destruct s as [|p [|q rest]]; try (simpl in L; lia).
    simpl in F. inversion F as [|? ? Hp F1]; subst.
    inversion F1 as [|? ? Hq F2]; subst.
    destruct (IH rest) as (l & D & Ll); [simpl in L; lia | exact F2 |].
    cbn [hex.Decode]. unfold hexdigit in Hp, Hq.
    destruct (hex.fromHexChar p); [|contradiction].
    destruct (hex.fromHexChar q); [|contradiction].
    rewrite D. eexists; split; [reflexivity | simpl; lia].
Qed.

(** ** More on the store *)

Lemma delete_first_shape (id : primitive.ObjectID) (c : list todoModel.t) :
  (mongo.has_id id c = false /\ fst (mongo.delete_first id c) = c)
  \/ exists l1 d l2,
      c = l1 ++ d :: l2 /\ todoModel.ID d = id
      /\ mongo.has_id id l1 = false
      /\ fst (mongo.delete_first id c) = l1 ++ l2.
Proof.
  induction c as [|d c IH]; simpl; [left; split; reflexivity|].
  destruct (primitive.eqb (todoModel.ID d) id) eqn:E; simpl.
  - right. exists [], d, c. apply oid_eqb_eq in E. repeat split; assumption.
  - destruct (mongo.delete_first id c) as [c' n]. simpl in *.
    destruct IH as [[H ->] | (l1 & x & l2 & -> & Hx & Hl & ->)].
    + left. split; [exact H | reflexivity].
    + right. exists (d :: l1), x, l2. simpl. rewrite E, Hl.
      repeat split; assumption.
Qed.

Lemma delete_first_snoc (id : primitive.ObjectID) (c : list todoModel.t)
  (x : todoModel.t) :
  mongo.has_id id c = false -> todoModel.ID x = id ->
  mongo.delete_first id (c ++ [x]) = (c, 1%Z).
Proof.
  intros H <-. induction c as [|d c IH]; simpl.
  - rewrite oid_eqb_refl. reflexivity.
  - simpl in H. apply orb_false_iff in H as [E H]. rewrite E, (IH H). reflexivity.
Qed.


Lemma update_first_idem (id : primitive.ObjectID) ti co (c : list todoModel.t) :
  fst (mongo.update_first id ti co (fst (mongo.update_first id ti co c)))
  = fst (mongo.update_first id ti co c).
Proof.
  induction c as [|d c IH]; simpl; [reflexivity|].
  destruct (primitive.eqb (todoModel.ID d) id) eqn:E; simpl.
  - rewrite E. reflexivity.
  - destruct (mongo.update_first id ti co c) as [c' n] eqn:U. simpl in *.
    rewrite E.
    destruct (mongo.update_first id ti co c') as [c'' n']. simpl in *.
    rewrite IH. reflexivity.
Qed.

Lemma delete_first_In (id : primitive.ObjectID) (c : list todoModel.t) :
  forall d, In d (fst (mongo.delete_first id c)) -> In d c.
Proof.
  induction c as [|x c IH]; simpl; [tauto|].
  destruct (primitive.eqb (todoModel.ID x) id); simpl; [tauto|].
  destruct (mongo.delete_first id c) as [c' n]. simpl in *.
  intros d [E|H]; [left; exact E | right; apply IH, H].
Qed.

Lemma update_first_In (id : primitive.ObjectID) ti co (c : list todoModel.t) :
  forall d', In d' (fst (mongo.update_first id ti co c)) ->
    In d' c
    \/ exists d, In d c /\ todoModel.ID d = id
                 /\ d' = todoModel.mk (todoModel.ID d) ti co (todoModel.CreateAt d).
Proof.
  induction c as [|x c IH]; simpl; [tauto|].
  destruct (primitive.eqb (todoModel.ID x) id) eqn:E; simpl.
  - apply oid_eqb_eq in E. intros d' [H|H].
    + right. exists x. repeat split; [left; reflexivity | exact E | symmetry; exact H].
    + left. right. exact H.
  - destruct (mongo.update_first id ti co c) as [c' n]. simpl in *.
    intros d' [H|H]; [left; left; exact H|].
    destruct (IH d' H) as [K | (d & K1 & K2 & K3)].
    + left. right. exact K.
    + right. exists d. repeat split; [right; exact K1 | exact K2 | exact K3].
Qed.

(** ** Create, then use the identifier *)

Lemma createTodos_ok_inv (e : Env) (r : Request) (t : todo.t)
  (db db' : mongo.Database) (resp : renderer.Response) :
  Decode r = Some t -> primitive.IsZero (NewObjectID e) = false ->
  createTodos e r db = (resp, db') -> renderer.Status resp = http.StatusOK ->
  todo.Title t <> ""
  /\ mongo.has_id (NewObjectID e) (mongo.collection db) = false
  /\ field_of "Todo ID" resp = Some (primitive.Hex (NewObjectID e))
  /\ mongo.collection db'
     = mongo.collection db
         ++ [todoModel.mk (NewObjectID e) (todo.Title t) false (Now e)].
Proof.
  intros HD HZ HC HS.
  assert (todo.Title t <> "") as HT.
  { intros E. unfold createTodos in HC. rewrite HD, E in HC. simpl in HC.
    injection HC as <- _. discriminate HS. }
  rewrite (createTodos_run e r t db HD HT) in HC. cbv zeta in HC.
  rewrite HZ in HC.
  destruct (storeErr e).
  { injection HC as <- _. discriminate HS. }
  destruct (mongo.has_id (NewObjectID e) (mongo.collection db)) eqn:HN.
  { injection HC as <- _. discriminate HS. }
  injection HC as <- <-. repeat split. exact HT.
Qed.

(** X1. Create then Delete: the identifier a successful create returns is
    accepted by Delete, which answers 200 and leaves the collection as it
    was before the create. *)
Theorem X1_create_then_delete (e e2 : Env) (r : Request) (t : todo.t)
  (db db' : mongo.Database) (resp : renderer.Response) (id : string)
  (body : option todo.t) :
  Decode r = Some t -> primitive.IsZero (NewObjectID e) = false ->
  createTodos e r db = (resp, db') -> renderer.Status resp = http.StatusOK ->
  field_of "Todo ID" resp = Some id -> storeErr e2 = None ->
  renderer.Status (fst (deleteTodo e2 (mkRequest id body) db')) = http.StatusOK
  /\ mongo.collection (snd (deleteTodo e2 (mkRequest id body) db'))
     = mongo.collection db.
Proof.
  intros HD HZ HC HS HI HE.
  destruct (createTodos_ok_inv e r t db db' resp HD HZ HC HS)
    as (_ & HN & HF & HDb).
  rewrite HF in HI. injection HI as <-.
  assert (primitive.IsValidObjectID
            (strings.TrimSpace
               (URLParam_id (mkRequest (primitive.Hex (NewObjectID e)) body)))
          = true) as HV.
  { cbn [URLParam_id]. rewrite TrimSpace_Hex. apply Hex_valid. }
  rewrite (deleteTodo_run e2 _ db' HV). cbv zeta. rewrite HE.
  cbn [URLParam_id fst snd mongo.collection].
  rewrite TrimSpace_Hex, objectID_of_Hex, HDb.
  rewrite has_id_app, HN. cbn [mongo.has_id existsb todoModel.ID orb].
  rewrite oid_eqb_refl. cbn [orb].
  rewrite delete_first_snoc by (try exact HN; reflexivity).
  split; reflexivity.
Qed.

Lemma X1_create_then_delete_witness :
  renderer.Status (fst (deleteTodo env0 delete_X db_X)) = http.StatusOK
  /\ mongo.collection (snd (deleteTodo env0 delete_X db_X))
     = mongo.collection empty_db.
Proof.
  apply (X1_create_then_delete env0 env0 post_buy_milk
           (todo.mk "" "Buy milk" true 0%Z) empty_db db_X
           (fst (createTodos env0 post_buy_milk empty_db))
           "65f1a0b2c3d4e5f601020304" None); reflexivity.
Defined.



(** X3. Update checks the body as Create does: whatever the identifier,
    a body that does not decode or a decoded empty title is answered 400,
    and the database is exactly as before, without a driver call. *)
Theorem X3_update_rejects_body (e : Env) (r : Request) (db : mongo.Database) :
  (Decode r = None \/ exists t, Decode r = Some t /\ todo.Title t = "") ->
  renderer.Status (fst (updateTodo e r db)) = http.StatusBadRequest
  /\ snd (updateTodo e r db) = db.
Proof.
  intros H. unfold updateTodo.
  destruct (primitive.IsValidObjectID (strings.TrimSpace (URLParam_id r)));
    cbn [negb]; [|split; reflexivity].
  destruct H as [-> | (t & -> & ->)]; split; reflexivity.
Qed.

Lemma X3_update_rejects_body_witness :
  renderer.Status (fst (updateTodo env0 put_X_no_title db_X))
  = http.StatusBadRequest
  /\ snd (updateTodo env0 put_X_no_title db_X) = db_X.
Proof.
  apply (X3_update_rejects_body env0 put_X_no_title db_X).
  right. exists (todo.mk "" "" true 0%Z). split; reflexivity.
Defined.

(** ** What the handlers answer and when they call the store *)

(** Each of Create, Update and Delete either answers 400 and leaves the
    database as it was, or makes exactly one driver call and answers
    another status. *)
Lemma create_400_or_call (e : Env) (r : Request) (db : mongo.Database) :
  (renderer.Status (fst (createTodos e r db)) = http.StatusBadRequest
   /\ snd (createTodos e r db) = db)
  \/ (In (renderer.Status (fst (createTodos e r db)))
        [http.StatusOK; http.StatusInternalServerError]
      /\ exists doc,
          mongo.calls (snd (createTodos e r db))
          = mongo.calls db ++ [mongo.InsertOne doc]).
Proof.
  destruct (Decode r) as [t|] eqn:HD.
  - destruct (String.eqb (todo.Title t) "") eqn:HT.
    + left. unfold createTodos. rewrite HD, HT. split; reflexivity.
    + right. apply String.eqb_neq in HT.
      rewrite (createTodos_run e r t db HD HT). cbv zeta.
      destruct (storeErr e).
      { split; [right; left; reflexivity | eexists; reflexivity]. }
      match goal with |- context [mongo.has_id ?i ?c] =>
        destruct (mongo.has_id i c) end.
      * split; [right; left; reflexivity | eexists; reflexivity].
      * split; [left; reflexivity | eexists; reflexivity].
  - left. unfold createTodos. rewrite HD. split; reflexivity.
Qed.

Lemma update_400_or_call (e : Env) (r : Request) (db : mongo.Database) :
  (renderer.Status (fst (updateTodo e r db)) = http.StatusBadRequest
   /\ snd (updateTodo e r db) = db)
  \/ (In (renderer.Status (fst (updateTodo e r db)))
        [http.StatusOK; http.StatusInternalServerError]
      /\ exists id ti co,
          mongo.calls (snd (updateTodo e r db))
          = mongo.calls db ++ [mongo.UpdateOne id ti co]).
Proof.
  destruct (primitive.IsValidObjectID (strings.TrimSpace (URLParam_id r))) eqn:HV.
  - destruct (Decode r) as [t|] eqn:HD.
    + destruct (String.eqb (todo.Title t) "") eqn:HT.
      * left. unfold updateTodo. rewrite HV, HD, HT. split; reflexivity.
      * right. apply String.eqb_neq in HT.
        rewrite (updateTodo_run e r t db HV HD HT). cbv zeta.
        destruct (storeErr e).
        { split; [right; left; reflexivity | eexists _, _, _; reflexivity]. }
        split; [left; reflexivity | eexists _, _, _; reflexivity].
    + left. unfold updateTodo. rewrite HV, HD. split; reflexivity.
  - left. destruct (invalid_id_rejected e r db HV) as [_ ->]. split; reflexivity.
Qed.

Lemma delete_400_or_call (e : Env) (r : Request) (db : mongo.Database) :
  (renderer.Status (fst (deleteTodo e r db)) = http.StatusBadRequest
   /\ snd (deleteTodo e r db) = db)
  \/ (In (renderer.Status (fst (deleteTodo e r db)))
        [http.StatusOK; http.StatusNotFound; http.StatusInternalServerError]
      /\ exists id,
          mongo.calls (snd (deleteTodo e r db))
          = mongo.calls db ++ [mongo.DeleteOne id]).
Proof.
  destruct (primitive.IsValidObjectID (strings.TrimSpace (URLParam_id r))) eqn:HV.
  - right. rewrite (deleteTodo_run e r db HV). cbv zeta.
    destruct (storeErr e).
    { split; [right; right; left; reflexivity | eexists; reflexivity]. }
    destruct (mongo.has_id _ (mongo.collection db)).
    + split; [left; reflexivity | eexists; reflexivity].
    + split; [right; left; reflexivity | eexists; reflexivity].
  - left. destruct (invalid_id_rejected e r db HV) as [-> _]. split; reflexivity.
Qed.

(** X4. The statuses the handlers can answer: List 200 or 500; Create and
    Update 200, 400 or 500, never 404; Delete 200, 400, 404 or 500. *)
Theorem X4_status_codes (e : Env) (r : Request) (db : mongo.Database) :
  In (renderer.Status (fst (fetchTodos e db))) [200; 500]%Z
  /\ In (renderer.Status (fst (createTodos e r db))) [200; 400; 500]%Z
  /\ In (renderer.Status (fst (updateTodo e r db))) [200; 400; 500]%Z
  /\ In (renderer.Status (fst (deleteTodo e r db))) [200; 400; 404; 500]%Z.
Proof.
  repeat split.
  - rewrite fetchTodos_run. destruct (storeErr e); [simpl; tauto|].
    cbv zeta. destruct (cursorErr e); simpl; tauto.
  - destruct (create_400_or_call e r db) as [[-> _] | [H _]].
    + simpl; tauto.
    + simpl in H |- *. unfold http.StatusOK, http.StatusInternalServerError in H.
      tauto.
  - destruct (update_400_or_call e r db) as [[-> _] | [H _]].
    + simpl; tauto.
    + simpl in H |- *. unfold http.StatusOK, http.StatusInternalServerError in H.
      tauto.
  - destruct (delete_400_or_call e r db) as [[-> _] | [H _]].
    + simpl; tauto.
    + simpl in H |- *.
      unfold http.StatusOK, http.StatusNotFound,
        http.StatusInternalServerError in H.
      tauto.
Qed.

(** X5. Create, Update and Delete answer 400 exactly when they make no
    driver call: a 400 leaves the database, call log included, as it was,
    and every other answer comes after exactly one call, InsertOne,
    UpdateOne or DeleteOne by handler. *)
Theorem X5_bad_request_iff_no_call (e : Env) (r : Request) (db : mongo.Database) :
  (renderer.Status (fst (createTodos e r db)) = http.StatusBadRequest
   <-> mongo.calls (snd (createTodos e r db)) = mongo.calls db)
  /\ (renderer.Status (fst (updateTodo e r db)) = http.StatusBadRequest
      <-> mongo.calls (snd (updateTodo e r db)) = mongo.calls db)
  /\ (renderer.Status (fst (deleteTodo e r db)) = http.StatusBadRequest
      <-> mongo.calls (snd (deleteTodo e r db)) = mongo.calls db)
  /\ (renderer.Status (fst (createTodos e r db)) <> http.StatusBadRequest ->
      exists doc, mongo.calls (snd (createTodos e r db))
                  = mongo.calls db ++ [mongo.InsertOne doc])
  /\ (renderer.Status (fst (updateTodo e r db)) <> http.StatusBadRequest ->
      exists id ti co, mongo.calls (snd (updateTodo e r db))
                       = mongo.calls db ++ [mongo.UpdateOne id ti co])
  /\ (renderer.Status (fst (deleteTodo e r db)) <> http.StatusBadRequest ->
      exists id, mongo.calls (snd (deleteTodo e r db))
                 = mongo.calls db ++ [mongo.DeleteOne id]).
Proof.
  assert (forall (l : list mongo.Call) c, l ++ [c] <> l) as K.
  { intros l c E. apply (f_equal (@List.length _)) in E.
    rewrite length_app in E. simpl in E. lia. }
  assert (forall z, In z [http.StatusOK; http.StatusInternalServerError] ->
                    z <> http.StatusBadRequest) as N2.
  { intros z [<-|[<-|[]]]; discriminate. }
  assert (forall z, In z [http.StatusOK; http.StatusNotFound;
                          http.StatusInternalServerError] ->
                    z <> http.StatusBadRequest) as N3.
  { intros z [<-|[<-|[<-|[]]]]; discriminate. }
  destruct (create_400_or_call e r db) as [[C1 C2] | [C1 (doc & C2)]];
  destruct (update_400_or_call e r db) as [[U1 U2] | [U1 (i & ti & co & U2)]];
  destruct (delete_400_or_call e r db) as [[D1 D2] | [D1 (j & D2)]];
  repeat match goal with
    | H : In _ _ |- _ => first [apply N2 in H | apply N3 in H]
    end;
  repeat split; intros;
    try reflexivity; try assumption; try contradiction;
    try (rewrite C2; reflexivity); try (rewrite U2; reflexivity);
    try (rewrite D2; reflexivity);
    try (exfalso; eapply K; rewrite <- C2; eassumption);
    try (exfalso; eapply K; rewrite <- U2; eassumption);
    try (exfalso; eapply K; rewrite <- D2; eassumption);
    try (eexists; eassumption); try (eexists _, _, _; eassumption).
Qed.

Lemma X5_bad_request_iff_no_call_witness :
  (exists doc, mongo.calls (snd (createTodos env0 post_buy_milk empty_db))
               = mongo.calls empty_db ++ [mongo.InsertOne doc])
  /\ (renderer.Status (fst (updateTodo env0 put_X_no_title db_X))
      = http.StatusBadRequest
      <-> mongo.calls (snd (updateTodo env0 put_X_no_title db_X))
          = mongo.calls db_X).
Proof.
  split.
  - apply (proj1 (proj2 (proj2 (proj2
             (X5_bad_request_iff_no_call env0 post_buy_milk empty_db))))).
    discriminate.
  - apply (proj1 (proj2 (X5_bad_request_iff_no_call env0 put_X_no_title db_X))).
Defined.

(** X6. Delete removes at most one document: on 200 the collection loses
    exactly the first document with the identifier and keeps the others in
    their order; on 404 no document has the identifier and the collection
    is as it was. *)
Theorem X6_delete_frame (e : Env) (r : Request) (db db' : mongo.Database)
  (resp : renderer.Response) :
  deleteTodo e r db = (resp, db') ->
  (renderer.Status resp = http.StatusOK ->
   exists l1 d l2,
     mongo.collection db = l1 ++ d :: l2
     /\ todoModel.ID d = objectID_of (strings.TrimSpace (URLParam_id r))
     /\ mongo.has_id (todoModel.ID d) l1 = false
     /\ mongo.collection db' = l1 ++ l2)
  /\ (renderer.Status resp = http.StatusNotFound ->
      mongo.has_id (objectID_of (strings.TrimSpace (URLParam_id r)))
        (mongo.collection db) = false
      /\ mongo.collection db' = mongo.collection db).
Proof.
  intros HR.
  destruct (primitive.IsValidObjectID (strings.TrimSpace (URLParam_id r))) eqn:HV.
  - rewrite (deleteTodo_run e r db HV) in HR. cbv zeta in HR.
    destruct (storeErr e).
    { injection HR as <- _. split; intros H; discriminate H. }
    destruct (delete_first_shape
                (objectID_of (strings.TrimSpace (URLParam_id r)))
                (mongo.collection db))
      as [[HN E] | (l1 & d & l2 & E1 & E2 & E3 & E4)].
    + rewrite HN in HR. injection HR as <- <-. cbn [mongo.collection].
      split; intros H; [discriminate H | split; assumption].
    + assert (mongo.has_id (objectID_of (strings.TrimSpace (URLParam_id r)))
                (mongo.collection db) = true) as HY.
      { rewrite E1, has_id_app. cbn [mongo.has_id existsb].
        rewrite E2, oid_eqb_refl. cbn [orb]. apply orb_true_r. }
      rewrite HY in HR. injection HR as <- <-. cbn [mongo.collection].
      split; intros H; [|discriminate H].
      exists l1, d, l2. rewrite E2. repeat split; assumption.
  - destruct (invalid_id_rejected e r db HV) as [E _]. rewrite E in HR.
    injection HR as <- _. split; intros H; discriminate H.
Qed.

Lemma X6_delete_frame_witness :
  (renderer.Status (fst (deleteTodo env0 delete_X db_X)) = http.StatusOK ->
   exists l1 d l2,
     mongo.collection db_X = l1 ++ d :: l2
     /\ todoModel.ID d = objectID_of (strings.TrimSpace (URLParam_id delete_X))
     /\ mongo.has_id (todoModel.ID d) l1 = false
     /\ mongo.collection (snd (deleteTodo env0 delete_X db_X)) = l1 ++ l2)
  /\ (renderer.Status (fst (deleteTodo env0 delete_X db_X)) = http.StatusNotFound ->
      mongo.has_id (objectID_of (strings.TrimSpace (URLParam_id delete_X)))
        (mongo.collection db_X) = false
      /\ mongo.collection (snd (deleteTodo env0 delete_X db_X))
         = mongo.collection db_X).
Proof.
  apply (X6_delete_frame env0 delete_X db_X
           (snd (deleteTodo env0 delete_X db_X))
           (fst (deleteTodo env0 delete_X db_X))).
  reflexivity.
Defined.



(** X8. Update and Delete depend on the path identifier only through the
    ObjectID it parses to: a valid identifier, in upper or lower case hex,
    is handled exactly as its canonical lower-case form. *)
Theorem X8_id_canonical (e : Env) (r : Request) (db : mongo.Database) :
  primitive.IsValidObjectID (strings.TrimSpace (URLParam_id r)) = true ->
  deleteTodo e r db
  = deleteTodo e
      (mkRequest
         (primitive.Hex (objectID_of (strings.TrimSpace (URLParam_id r))))
         (Decode r)) db
  /\ updateTodo e r db
     = updateTodo e
         (mkRequest
            (primitive.Hex (objectID_of (strings.TrimSpace (URLParam_id r))))
            (Decode r)) db.
Proof.
  intros HV. unfold deleteTodo, updateTodo. cbn [URLParam_id Decode].
  rewrite !TrimSpace_Hex, !Hex_valid, HV, !objectID_of_Hex.
  split; reflexivity.
Qed.

Lemma X8_id_canonical_witness :
  deleteTodo env0 delete_upper_X db_X = deleteTodo env0 delete_X db_X
  /\ updateTodo env0 delete_upper_X db_X = updateTodo env0 delete_X db_X.
Proof.
  apply (X8_id_canonical env0 delete_upper_X db_X). reflexivity.
Defined.

(** X9. Every identifier that List shows can be used: it is a valid
    ObjectID, Delete on it answers 200 when the store call does not fail,
    and afterwards no stored document has it. *)
Theorem X9_listed_id_deletes (e e2 : Env) (db : mongo.Database)
  (views : slice todo.t) (v : todo.t) (body : option todo.t) :
  storeErr e = None -> cursorErr e = None ->
  data_of (fst (fetchTodos e db)) = Some views -> In v (elems views) ->
  unique_ids (mongo.collection db) -> storeErr e2 = None ->
  primitive.IsValidObjectID (todo.ID v) = true
  /\ renderer.Status
       (fst (deleteTodo e2 (mkRequest (todo.ID v) body) (snd (fetchTodos e db))))
     = http.StatusOK
  /\ find_view (todo.ID v)
       (map toView
          (mongo.collection
             (snd (deleteTodo e2 (mkRequest (todo.ID v) body)
                     (snd (fetchTodos e db))))))
     = None.
Proof.
  intros H1 H2 HD HI HU HE.
  assert (mongo.collection (snd (fetchTodos e db)) = mongo.collection db) as HC.
  { rewrite fetchTodos_run, H1, H2. reflexivity. }
  rewrite fetchTodos_run, H1, H2 in HD. cbv zeta in HD.
  unfold data_of in HD. cbn [fst renderer.Body renderer.get] in HD.
  rewrite String.eqb_refl in HD. injection HD as <-.
  rewrite fold_append_elems in HI. cbn [elems app] in HI.
  apply in_map_iff in HI as (d & <- & Hd).
  cbn [toView todo.ID].
  split; [apply Hex_valid|].
  assert (primitive.IsValidObjectID
            (strings.TrimSpace
               (URLParam_id (mkRequest (primitive.Hex (todoModel.ID d)) body)))
          = true) as HV.
  { cbn [URLParam_id]. rewrite TrimSpace_Hex. apply Hex_valid. }
  rewrite (deleteTodo_run e2 _ _ HV). cbv zeta. rewrite HE.
  cbn [URLParam_id fst snd mongo.collection].
  rewrite TrimSpace_Hex, objectID_of_Hex, HC.
  assert (mongo.has_id (todoModel.ID d) (mongo.collection db) = true) as HY.
  { apply has_id_In, in_map, Hd. }
  rewrite HY. split; [reflexivity|].
  apply find_view_absent, delete_first_gone, HU.
Qed.

Lemma X9_listed_id_deletes_witness :
  primitive.IsValidObjectID "65f1a0b2c3d4e5f601020304" = true
  /\ renderer.Status
       (fst (deleteTodo env0 (mkRequest "65f1a0b2c3d4e5f601020304" None)
               (snd (fetchTodos env0 db_X))))
     = http.StatusOK
  /\ find_view "65f1a0b2c3d4e5f601020304"
       (map toView
          (mongo.collection
             (snd (deleteTodo env0 (mkRequest "65f1a0b2c3d4e5f601020304" None)
                     (snd (fetchTodos env0 db_X))))))
     = None.
Proof.
  apply (X9_listed_id_deletes env0 env0 db_X
           (Some [toView (todoModel.mk id_X "Buy milk" false 1700000000%Z)])
           (toView (todoModel.mk id_X "Buy milk" false 1700000000%Z)) None);
    try reflexivity.
  - left. reflexivity.
  - repeat constructor. simpl. tauto.
Defined.

(** X10. Update is idempotent: sending the same update again, after one
    whose store call did not fail, answers the same status and leaves the
    collection as the first left it. *)
Theorem X10_update_idempotent (e e2 : Env) (r : Request) (db : mongo.Database) :
  storeErr e = None -> storeErr e2 = None ->
  renderer.Status (fst (updateTodo e2 r (snd (updateTodo e r db))))
  = renderer.Status (fst (updateTodo e r db))
  /\ mongo.collection (snd (updateTodo e2 r (snd (updateTodo e r db))))
     = mongo.collection (snd (updateTodo e r db)).
Proof.
  intros HE HE2.
  destruct (primitive.IsValidObjectID (strings.TrimSpace (URLParam_id r))) eqn:HV.
  - destruct (Decode r) as [t|] eqn:HD.
    + destruct (String.eqb (todo.Title t) "") eqn:HT.
      * unfold updateTodo. rewrite HV, HD, HT. split; reflexivity.
      * apply String.eqb_neq in HT.
        rewrite (updateTodo_run e r t db HV HD HT). cbv zeta. rewrite HE.
        cbn [snd]. rewrite (updateTodo_run e2 r t _ HV HD HT). cbv zeta.
        rewrite HE2. cbn [fst snd mongo.collection].
        split; [reflexivity | apply update_first_idem].
    + unfold updateTodo. rewrite HV, HD. split; reflexivity.
  - destruct (invalid_id_rejected e r db HV) as [_ ->]. cbn [snd].
    destruct (invalid_id_rejected e2 r db HV) as [_ ->]. split; reflexivity.
Qed.

Lemma X10_update_idempotent_witness :
  renderer.Status (fst (updateTodo env0 put_X_bread
                          (snd (updateTodo env0 put_X_bread db_X))))
  = renderer.Status (fst (updateTodo env0 put_X_bread db_X))
  /\ mongo.collection (snd (updateTodo env0 put_X_bread
                              (snd (updateTodo env0 put_X_bread db_X))))
     = mongo.collection (snd (updateTodo env0 put_X_bread db_X)).
Proof.
  apply (X10_update_idempotent env0 env0 put_X_bread db_X); reflexivity.
Defined.

(** ** Invariants over the routes *)

Lemma titles_kept (e : Env) (r : Request) (db : mongo.Database) :
  Forall (fun d => todoModel.Title d <> "") (mongo.collection db) ->
  Forall (fun d => todoModel.Title d <> "")
    (mongo.collection (snd (createTodos e r db)))
  /\ Forall (fun d => todoModel.Title d <> "")
       (mongo.collection (snd (updateTodo e r db)))
  /\ Forall (fun d => todoModel.Title d <> "")
       (mongo.collection (snd (deleteTodo e r db)))
  /\ Forall (fun d => todoModel.Title d <> "")
       (mongo.collection (snd (fetchTodos e db))).
Proof.
  intros F. repeat split.
  - destruct (Decode r) as [t|] eqn:HD.
    + destruct (String.eqb (todo.Title t) "") eqn:HT.
      * unfold createTodos. rewrite HD, HT. exact F.
      * apply String.eqb_neq in HT.
        rewrite (createTodos_run e r t db HD HT). cbv zeta.
        destruct (storeErr e); [exact F|].
        match goal with |- context [mongo.has_id ?i ?c] =>
          destruct (mongo.has_id i c) end; [exact F|].
        cbn [snd mongo.collection]. apply Forall_app. split; [exact F|].
        constructor; [exact HT | constructor].
    + unfold createTodos. rewrite HD. exact F.
  - destruct (primitive.IsValidObjectID (strings.TrimSpace (URLParam_id r))) eqn:HV.
    + destruct (Decode r) as [t|] eqn:HD.
      * destruct (String.eqb (todo.Title t) "") eqn:HT.
        { unfold updateTodo. rewrite HV, HD, HT. exact F. }
        apply String.eqb_neq in HT.
        rewrite (updateTodo_run e r t db HV HD HT). cbv zeta.
        destruct (storeErr e); cbn [snd mongo.collection]; [exact F|].
        apply Forall_forall. intros d' Hd'.
        destruct (update_first_In _ _ _ _ d' Hd') as [K | (d & _ & _ & ->)].
        { rewrite Forall_forall in F. apply F, K. }
        exact HT.
      * unfold updateTodo. rewrite HV, HD. exact F.
    + destruct (invalid_id_rejected e r db HV) as [_ ->]. exact F.
  - destruct (primitive.IsValidObjectID (strings.TrimSpace (URLParam_id r))) eqn:HV.
    + rewrite (deleteTodo_run e r db HV). cbv zeta.
      destruct (storeErr e); cbn [snd mongo.collection]; [exact F|].
      apply Forall_forall. intros d' Hd'. rewrite Forall_forall in F.
      apply F, (delete_first_In _ _ _ Hd').
    + destruct (invalid_id_rejected e r db HV) as [-> _]. exact F.
  - rewrite fetchTodos_run. destruct (storeErr e); [exact F|].
    cbv zeta. destruct (cursorErr e); exact F.
Qed.

Lemma serve_cases (q : Served) (db : mongo.Database) :
  snd (serve q db) = db
  \/ snd (serve q db) = snd (fetchTodos (served_env q) db)
  \/ snd (serve q db) = snd (createTodos (served_env q) (served_request q) db)
  \/ snd (serve q db) = snd (updateTodo (served_env q) (served_request q) db)
  \/ snd (serve q db) = snd (deleteTodo (served_env q) (served_request q) db).
Proof.
  unfold serve, todoHandlers.
  destruct (served_method q), (served_pattern q); try (left; reflexivity).
  - right; left. destruct (fetchTodos (served_env q) db); reflexivity.
  - right; right; left.
    destruct (createTodos (served_env q) (served_request q) db); reflexivity.
  - right; right; right; left.
    destruct (updateTodo (served_env q) (served_request q) db); reflexivity.
  - right; right; right; right.
    destruct (deleteTodo (served_env q) (served_request q) db); reflexivity.
Qed.

Lemma serve_keeps (q : Served) (db : mongo.Database) :
  unique_ids (mongo.collection db)
  /\ Forall (fun d => todoModel.Title d <> "") (mongo.collection db) ->
  unique_ids (mongo.collection (snd (serve q db)))
  /\ Forall (fun d => todoModel.Title d <> "")
       (mongo.collection (snd (serve q db))).
Proof.
  intros [U F].
  destruct (handlers_keep_unique_ids (served_env q) (served_request q) db U)
    as (U1 & U2 & U3 & U4).
  destruct (titles_kept (served_env q) (served_request q) db F)
    as (F2 & F3 & F4 & F1).
  destruct (serve_cases q db) as [-> | [-> | [-> | [-> | ->]]]];
    split; assumption.
Qed.

(** X11. Whatever requests the sub-router serves, starting from an empty
    collection, the stored documents have pairwise distinct identifiers
    and none has an empty title. *)
Theorem X11_reachable_invariant (qs : list Served) :
  unique_ids (mongo.collection (serve_all qs empty_db))
  /\ Forall (fun d => todoModel.Title d <> "")
       (mongo.collection (serve_all qs empty_db)).
Proof.
  assert (unique_ids (mongo.collection empty_db)
          /\ Forall (fun d => todoModel.Title d <> "") (mongo.collection empty_db))
    as H0 by (split; constructor).
  revert H0. generalize empty_db as db.
  induction qs as [|q qs IH]; intros db H; [exact H|].
  cbn [serve_all]. apply IH, serve_keeps, H.
Qed.



(** ** The encoded list *)

Lemma fold_append_Some {A B : Type} (f : A -> B) (l : list A) :
  l <> [] -> fold_left (fun a x => append a (f x)) l None = Some (map f l).
Proof.
  intros H. pose proof (fold_append_elems f l None) as E.
  destruct (fold_left (fun a x => append a (f x)) l None) as [a|] eqn:F.
  - simpl in E. rewrite E. reflexivity.
  - apply fold_append_nil in F. contradiction.
Qed.

(** X13. With at least one document stored, the data field of a List
    answer is encoded as a JSON array with one object per document, in
    their order, under the keys id, title, completed and create_at. *)
Theorem X13_nonempty_list_json (e : Env) (db : mongo.Database) :
  storeErr e = None -> cursorErr e = None -> mongo.collection db <> [] ->
  option_map json.Marshal
    (renderer.get "data" (renderer.Body (fst (fetchTodos e db))))
  = Some (json.Array
            (map (fun d =>
                    json.Object
                      [("id", json.String (primitive.Hex (todoModel.ID d)));
                       ("title", json.String (todoModel.Title d));
                       ("completed", json.Bool (todoModel.Completed d));
                       ("create_at", json.Timestamp (todoModel.CreateAt d))])
               (mongo.collection db))).
Proof.
  intros H1 H2 HN. rewrite fetchTodos_run, H1, H2. cbv zeta.
  cbn [fst renderer.Body renderer.get]. rewrite String.eqb_refl.
  cbn [option_map]. rewrite (fold_append_Some toView _ HN).
  cbn [json.Marshal]. rewrite map_map. reflexivity.
Qed.

Lemma X13_nonempty_list_json_witness :
  option_map json.Marshal
    (renderer.get "data" (renderer.Body (fst (fetchTodos env0 db_X))))
  = Some (json.Array
            (map (fun d =>
                    json.Object
                      [("id", json.String (primitive.Hex (todoModel.ID d)));
                       ("title", json.String (todoModel.Title d));
                       ("completed", json.Bool (todoModel.Completed d));
                       ("create_at", json.Timestamp (todoModel.CreateAt d))])
               (mongo.collection db_X))).
Proof.
  apply (X13_nonempty_list_json env0 db_X); try reflexivity. discriminate.
Defined.

(** ** Which identifiers pass the check *)

Lemma valid_iff_24_hexdigits (s : string) :
  primitive.IsValidObjectID s = true
  <-> String.length s = 24 /\ Forall hexdigit (list_ascii_of_string s).
Proof.
  split.
  - intros H. split; [|apply valid_hexdigits, H].
    revert H. unfold primitive.IsValidObjectID, primitive.ObjectIDFromHex.
    destruct (Nat.eqb (String.length s) 24) eqn:L; simpl; [|discriminate].
    intros _. apply Nat.eqb_eq, L.
  - intros [L F]. unfold primitive.IsValidObjectID, primitive.ObjectIDFromHex.
    rewrite L. cbn [Nat.eqb negb].
    destruct (Decode_hexdigits_total 12 s L F) as (l & -> & Ll).
    destruct (of_bytes_length l Ll) as [o ->]. reflexivity.
Qed.

(** X14. Delete answers 400 exactly when the path identifier, trimmed, is
    not a string of 24 hexadecimal digits (in either case); Update answers
    400 on every such identifier too. *)
Theorem X14_bad_id_iff_not_24_hex (e : Env) (r : Request) (db : mongo.Database) :
  (renderer.Status (fst (deleteTodo e r db)) = http.StatusBadRequest
   <-> ~ (String.length (strings.TrimSpace (URLParam_id r)) = 24
          /\ Forall hexdigit
               (list_ascii_of_string (strings.TrimSpace (URLParam_id r)))))
  /\ (~ (String.length (strings.TrimSpace (URLParam_id r)) = 24
         /\ Forall hexdigit
              (list_ascii_of_string (strings.TrimSpace (URLParam_id r)))) ->
      renderer.Status (fst (updateTodo e r db)) = http.StatusBadRequest).
Proof.
  rewrite <- valid_iff_24_hexdigits.
  destruct (primitive.IsValidObjectID (strings.TrimSpace (URLParam_id r))) eqn:HV.
  - split; [|intros H; exfalso; apply H; reflexivity].
    rewrite (deleteTodo_run e r db HV). cbv zeta. split.
    + destruct (storeErr e); [discriminate|].
      destruct (mongo.has_id _ (mongo.collection db)); discriminate.
    + intros H; exfalso; apply H; reflexivity.
  - destruct (invalid_id_rejected e r db HV) as [-> ->].
    split; [split|]; intros; try reflexivity. discriminate.
Qed.

Lemma X14_bad_id_iff_not_24_hex_witness :
  renderer.Status (fst (updateTodo env0 delete_not_an_id db_X))
  = http.StatusBadRequest.
Proof.
  apply (proj2 (X14_bad_id_iff_not_24_hex env0 delete_not_an_id db_X)).
  intros [L _]. discriminate L.
Defined.

(** ** Startup *)

(** X15. init ends the process unless the .env file loads, MONGO_URI is
    not empty and Connect succeeds, in this order: a failed load is fatal
    whatever MONGO_URI holds.  When init returns, rnd is set, db is the
    database demo_todo of a client connected with MONGO_URI, and the
    package-level client is what it was before, nil at startup. *)
Theorem X15_init_outcome (g : startup.Globals) (loadErr : option string)
  (mongoURI : string) (connectErr : option string) :
  (loadErr <> None ->
   startup.init g loadErr mongoURI connectErr
   = startup.Fatal "Error loading .env file")
  /\ (loadErr = None -> mongoURI = "" ->
      startup.init g loadErr mongoURI connectErr
      = startup.Fatal "MONGO_URI environment variable is not set")
  /\ (forall g',
        startup.init g loadErr mongoURI connectErr = startup.Started g'
        <-> loadErr = None /\ mongoURI <> "" /\ connectErr = None
            /\ g' = startup.mkGlobals (Some startup.New) (startup.client g)
                      (Some (startup.mkDatabase (startup.Connect mongoURI)
                               "demo_todo"))).
Proof.
  unfold startup.init. split; [|split].
  - destruct loadErr; [reflexivity | intros H; contradiction].
  - intros -> ->. reflexivity.
  - intros g'. destruct loadErr as [m|].
    { split; [discriminate | intros (H & _); discriminate H]. }
    destruct (String.eqb mongoURI "") eqn:E.
    { apply String.eqb_eq in E. split; [discriminate|].
      intros (_ & H & _). contradiction. }
    apply String.eqb_neq in E. cbv zeta.
    destruct connectErr as [c|].
    { split; [discriminate | intros (_ & _ & H & _); discriminate H]. }
    split.
    + intros H. injection H as <-. repeat split. exact E.
    + intros (_ & _ & _ & ->). reflexivity.
Qed.

Lemma X15_init_outcome_witness :
  startup.init startup.zero (Some "open .env: no such file or directory")
    "mongodb://localhost:27017" None
  = startup.Fatal "Error loading .env file"
  /\ startup.init startup.zero None "mongodb://localhost:27017" None
     = startup.Started
         (startup.mkGlobals (Some startup.New) None
            (Some (startup.mkDatabase (startup.Connect "mongodb://localhost:27017")
                     "demo_todo"))).
Proof.
  split.
  - apply (proj1 (X15_init_outcome startup.zero
                    (Some "open .env: no such file or directory")
                    "mongodb://localhost:27017" None)).
    discriminate.
  - apply (proj2 (proj2 (X15_init_outcome startup.zero None
                           "mongodb://localhost:27017" None))).
    repeat split. discriminate.
Defined.
